(** * AudioAge: the voice-biomarker UI and the analysis engine behind it

    The repository holds one React component, [VoiceBiomarkerApp]
    (src/voice-biomarker.tsx): five pieces of [useState] state, two refs, four
    handlers ([startRecording], [stopRecording], [analyzeAudio],
    [handleFileUpload]) and the JSX that renders an analysis result.  The
    component is embedded here as state passing over a [State] record; the
    JavaScript it relies on (truthiness, [||], [&&], [?.], property reads,
    [Number.prototype.toFixed]) is written out from ECMA-262.

    The engine that answers [/api/analyze-voice] is not among the source
    files.  [Module Engine] models it from the design document, with every
    numeric kernel and threshold the document leaves open taken as a
    parameter. *)

From Stdlib Require Import ZArith QArith Qround Qabs Qminmax Lqa String Ascii List Lia.
From stdpp Require Import base gmap strings list pretty.

#[local] Set Warnings "-register-all".
#[local] Open Scope string_scope.

(** ** JavaScript values *)

(** A Number: the exact value of a finite double, or one of the three
    non-finite ones.  [-0] is not kept apart from [0]: truthiness, [toFixed]
    and [ToString] treat them alike. *)
Inductive number :=
| NaN
| PosInf
| NegInf
| Fin (q : Q).

(** What [response.json()] can resolve with, and [undefined]. *)
Inductive JSValue :=
| JUndefined
| JNull
| JBool (b : bool)
| JNum (n : number)
| JStr (s : string)
| JArr (xs : list JSValue)
| JObj (o : gmap string JSValue).

(** What rendering can throw: a call of something that is not a function
    (TypeError), and React's refusal of a plain object as a child. *)
Inductive JSError :=
| TypeError
| InvalidChild.

(** Completion of an expression: a value, or a throw. *)
Inductive Completion (A : Type) :=
| Normal (a : A)
| Throw (e : JSError).
Arguments Normal {A} a.
Arguments Throw {A} e.

#[global] Instance Completion_bind : MBind Completion := fun A B k c =>
  match c with
  | Normal a => k a
  | Throw e => Throw e
  end.

Definition JNumZ (z : Z) : JSValue := JNum (Fin (inject_Z z)).

(** ECMA-262 7.1.2 ToBoolean. *)
Definition ToBoolean (v : JSValue) : bool :=
  match v with
  | JUndefined | JNull => false
  | JBool b => b
  | JNum NaN => false
  | JNum (Fin q) => negb (Qeq_bool q 0)
  | JNum _ => true
  | JStr s => negb (String.eqb s "")
  | JArr _ | JObj _ => true
  end.

(** [a || b] where [b] has no effect of its own. *)
Definition js_or (a b : JSValue) : JSValue := if ToBoolean a then a else b.

(** [v.k] for a key [k] that no built-in prototype defines (none of the keys
    the component reads is one): an own property of an object, [undefined]
    on anything else that can carry properties, a TypeError on [null] and
    [undefined]. *)
Definition get (v : JSValue) (k : string) : Completion JSValue :=
  match v with
  | JUndefined | JNull => Throw TypeError
  | JObj o => Normal (default JUndefined (o !! k))
  | _ => Normal JUndefined
  end.

Section Runtime.

(** The digits ECMA-262 6.1.6.1.20 Number::toString picks for a finite
    number that is not an integer of magnitude at most 2^53: the shortest
    decimal that reads back as the same double.  It depends on the double
    grid, which the exact values here do not carry, so it is the runtime's. *)
Variable shortest_digits : Q -> string.

Definition is_safe_integer (q : Q) : bool :=
  Qeq_bool (inject_Z (Qfloor q)) q && (Z.abs (Qfloor q) <=? 2 ^ 53)%Z.

(** Number::toString, radix 10. *)
Definition Number_toString (x : number) : string :=
  match x with
  | NaN => "NaN"
  | PosInf => "Infinity"
  | NegInf => "-Infinity"
  | Fin q =>
      if is_safe_integer q then
        (if (Qfloor q <? 0)%Z then "-" else "") ++ pretty (Z.to_N (Z.abs (Qfloor q)))
      else shortest_digits q
  end.

Fixpoint zeros (n : nat) : string :=
  match n with
  | O => ""
  | S n' => "0" ++ zeros n'
  end.

(** ECMA-262 21.1.3.3 Number.prototype.toFixed, for [0 <= f <= 100]. *)
Definition toFixed (x : number) (f : nat) : string :=
  match x with
  | Fin q =>
      let s := if Qlt_le_dec q 0 then "-" else "" in
      let a := Qabs q in
      if Qle_bool (inject_Z (10 ^ 21)) a then s ++ Number_toString (Fin a)
      else
        (* the integer n with n / 10^f closest to a, the larger of two *)
        let n := Qfloor (a * inject_Z (10 ^ Z.of_nat f) + (1 # 2)) in
        let m := pretty (Z.to_N n) in
        let m :=
          match f with
          | O => m
          | _ =>
              let k := String.length m in
              let m := if (k <=? f)%nat then zeros (f + 1 - k) ++ m else m in
              let k := String.length m in
              String.substring 0 (k - f) m ++ "." ++ String.substring (k - f) f m
          end in
        s ++ m
  | _ => Number_toString x
  end.

(** [x?.toFixed(f)]: short-circuits on [null] and [undefined]; a Number has
    the method; on anything else the property is missing (or, on an object
    parsed from JSON, not callable) and the call throws. *)
Definition opt_toFixed (x : JSValue) (f : nat) : Completion JSValue :=
  match x with
  | JUndefined | JNull => Normal JUndefined
  | JNum n => Normal (JStr (toFixed n f))
  | _ => Throw TypeError
  end.

End Runtime.


(** ** The analysis record of the endpoint *)

(** Modelled from the spec: the type of the record the endpoint returns
    (design document, section 6); the repository's source files do not
    declare it. [None] is JSON [null]. *)
Record AnalysisResult := {
  cadence : option Q;
  pitch_mean : option Q;
  pitch_std : option Q;
  cough_count : Z;
  sneeze_count : Z;
  tone_quality : string;
  speech_rate : string;
  health_insights : string
}.

Definition json_number_or_null (x : option Q) : JSValue :=
  match x with
  | Some q => JNum (Fin q)
  | None => JNull
  end.

(** The record as the JSON object of section 6. *)
Definition to_json (r : AnalysisResult) : gmap string JSValue :=
  <["cadence" := json_number_or_null (cadence r)]>
  (<["pitch_mean" := json_number_or_null (pitch_mean r)]>
  (<["pitch_std" := json_number_or_null (pitch_std r)]>
  (<["cough_count" := JNumZ (cough_count r)]>
  (<["sneeze_count" := JNumZ (sneeze_count r)]>
  (<["tone_quality" := JStr (tone_quality r)]>
  (<["speech_rate" := JStr (speech_rate r)]>
  (<["health_insights" := JStr (health_insights r)]> ∅))))))).

Definition result_fields : list string :=
  ["cadence"; "pitch_mean"; "pitch_std"; "cough_count"; "sneeze_count";
   "tone_quality"; "speech_rate"; "health_insights"].

Definition is_number_or_null (v : JSValue) : bool :=
  match v with
  | JNull | JNum (Fin _) => true
  | _ => false
  end.

Definition is_integer (v : JSValue) : bool :=
  match v with
  | JNum (Fin q) => Qeq_bool (inject_Z (Qfloor q)) q
  | _ => false
  end.

Definition is_string (v : JSValue) : bool :=
  match v with
  | JStr _ => true
  | _ => false
  end.

(** ** What the component returns *)

(** A React element tree: literal JSX text, a [{expression}] child holding
    the value it evaluated to, or an element with its [className]. *)
Inductive Node :=
| NText (s : string)
| NExpr (v : JSValue)
| NElem (tag className : string) (children : list Node).

Section Component.

Variable shortest_digits : Q -> string.

(** The text React puts in the DOM for an expression child: a string as it
    is, a number through ToString, nothing for booleans, [null] and
    [undefined], the items of an array one after the other; a plain object
    is refused. *)
Fixpoint child_text (v : JSValue) : Completion string :=
  match v with
  | JStr s => Normal s
  | JNum n => Normal (Number_toString shortest_digits n)
  | JUndefined | JNull | JBool _ => Normal ""
  | JArr xs =>
      (fix items (l : list JSValue) : Completion string :=
         match l with
         | [] => Normal ""
         | x :: l' => a ← child_text x; b ← items l'; Normal (a ++ b)
         end) xs
  | JObj _ => Throw InvalidChild
  end.

(** The text on screen for a cell, when evaluating it did not throw. *)
Definition displayed (cell : Completion JSValue) : Completion string :=
  v ← cell; child_text v.

(** Line 198: [{analysis.cadence?.toFixed(1) || 'N/A'}]. *)
Definition cadence_cell (analysis : JSValue) : Completion JSValue :=
  c ← get analysis "cadence";
  t ← opt_toFixed shortest_digits c 1;
  Normal (js_or t (JStr "N/A")).

(** Line 208: [{analysis.pitch_mean?.toFixed(0) || 'N/A'}]. *)
Definition pitch_mean_cell (analysis : JSValue) : Completion JSValue :=
  c ← get analysis "pitch_mean";
  t ← opt_toFixed shortest_digits c 0;
  Normal (js_or t (JStr "N/A")).

(** Line 219: [{analysis.cough_count || 0}]. *)
Definition cough_count_cell (analysis : JSValue) : Completion JSValue :=
  c ← get analysis "cough_count";
  Normal (js_or c (JNumZ 0)).

(** Line 223: [{analysis.sneeze_count || 0}]. *)
Definition sneeze_count_cell (analysis : JSValue) : Completion JSValue :=
  c ← get analysis "sneeze_count";
  Normal (js_or c (JNumZ 0)).

(** Line 234: [{analysis.pitch_std?.toFixed(1) || 'N/A'}]. *)
Definition pitch_std_cell (analysis : JSValue) : Completion JSValue :=
  c ← get analysis "pitch_std";
  t ← opt_toFixed shortest_digits c 1;
  Normal (js_or t (JStr "N/A")).

(** Line 238: [{analysis.tone_quality || 'Normal'}]. *)
Definition tone_quality_cell (analysis : JSValue) : Completion JSValue :=
  c ← get analysis "tone_quality";
  Normal (js_or c (JStr "Normal")).

(** Line 242: [{analysis.speech_rate || 'N/A'}]. *)
Definition speech_rate_cell (analysis : JSValue) : Completion JSValue :=
  c ← get analysis "speech_rate";
  Normal (js_or c (JStr "N/A")).

(** Lines 248-253: [{analysis.health_insights && (<div>...</div>)}]; a falsy
    value is itself the child. *)
Definition health_insights_block (analysis : JSValue) : Completion Node :=
  h ← get analysis "health_insights";
  Normal
    (if ToBoolean h then
       NElem "div" "bg-indigo-50 rounded-lg p-4"
         [NElem "h3" "font-medium text-indigo-900 mb-3" [NText "Health Insights"];
          NElem "p" "text-sm text-indigo-800" [NExpr h]]
     else NExpr h).

(** Lines 189-254: the populated branch of the results section. *)
Definition analysis_card (analysis : JSValue) : Completion Node :=
  cad ← cadence_cell analysis;
  pm ← pitch_mean_cell analysis;
  cc ← cough_count_cell analysis;
  sc ← sneeze_count_cell analysis;
  ps ← pitch_std_cell analysis;
  tq ← tone_quality_cell analysis;
  sr ← speech_rate_cell analysis;
  hi ← health_insights_block analysis;
  Normal
    (NElem "div" "space-y-6"
       [NElem "div" "grid grid-cols-2 gap-4"
          [NElem "div" "bg-blue-50 rounded-lg p-4"
             [NElem "div" "flex items-center gap-2 mb-2"
                [NElem "Clock" "w-4 h-4 text-blue-600" [];
                 NElem "span" "font-medium text-blue-900" [NText "Cadence"]];
              NElem "p" "text-2xl font-bold text-blue-700"
                [NExpr cad; NText " ";
                 NElem "span" "text-sm font-normal" [NText "WPM"]]];
           NElem "div" "bg-green-50 rounded-lg p-4"
             [NElem "div" "flex items-center gap-2 mb-2"
                [NElem "Volume2" "w-4 h-4 text-green-600" [];
                 NElem "span" "font-medium text-green-900" [NText "Pitch"]];
              NElem "p" "text-2xl font-bold text-green-700"
                [NExpr pm; NText " ";
                 NElem "span" "text-sm font-normal" [NText "Hz"]]]];
        NElem "div" "bg-yellow-50 rounded-lg p-4"
          [NElem "h3" "font-medium text-yellow-900 mb-3" [NText "Respiratory Events"];
           NElem "div" "grid grid-cols-2 gap-4 text-sm"
             [NElem "div" ""
                [NElem "span" "text-yellow-700" [NText "Coughs detected:"];
                 NElem "span" "font-bold ml-2" [NExpr cc]];
              NElem "div" ""
                [NElem "span" "text-yellow-700" [NText "Sneezes detected:"];
                 NElem "span" "font-bold ml-2" [NExpr sc]]]];
        NElem "div" "bg-purple-50 rounded-lg p-4"
          [NElem "h3" "font-medium text-purple-900 mb-3" [NText "Voice Characteristics"];
           NElem "div" "space-y-2 text-sm"
             [NElem "div" "flex justify-between"
                [NElem "span" "text-purple-700" [NText "Pitch Variation:"];
                 NElem "span" "font-medium" [NExpr ps; NText " Hz"]];
              NElem "div" "flex justify-between"
                [NElem "span" "text-purple-700" [NText "Tone Quality:"];
                 NElem "span" "font-medium" [NExpr tq]];
              NElem "div" "flex justify-between"
                [NElem "span" "text-purple-700" [NText "Speech Rate:"];
                 NElem "span" "font-medium" [NExpr sr]]]];
        hi]).

(** Lines 256-260: the placeholder branch. *)
Definition no_analysis_yet : Node :=
  NElem "div" "text-center py-12 text-gray-500"
    [NElem "Activity" "w-16 h-16 mx-auto mb-4 opacity-30" [];
     NElem "p" "text-lg font-medium mb-2" [NText "No analysis yet"];
     NElem "p" "text-sm" [NText "Record or upload audio to see biomarker analysis"]].

(** Lines 188-261: [{analysis ? (...) : (...)}]. *)
Definition results_panel (analysis : JSValue) : Completion Node :=
  if ToBoolean analysis then analysis_card analysis else Normal no_analysis_yet.

End Component.

(** ** State and handlers of [VoiceBiomarkerApp] *)

(** A Blob; a File is a Blob with a name. *)
Record Blob := {
  blob_name : option string;
  blob_type : string;
  blob_data : list Byte.byte
}.

(** [new Blob(parts, { type })]. *)
Definition new_Blob (parts : list Blob) (type : string) : Blob :=
  {| blob_name := None; blob_type := type; blob_data := concat (map blob_data parts) |}.

(** A MediaRecorder over a stream, recording or not. *)
Record MediaRecorder := {
  mr_stream : nat;
  mr_recording : bool
}.

(** The five [useState] cells (lines 5-9) and the two refs (lines 11-12). *)
Record State := {
  isRecording : bool;
  audioBlob : option Blob;
  analysis : JSValue;
  loading : bool;
  error : option string;
  mediaRecorderRef : option MediaRecorder;
  audioChunksRef : list Blob
}.

Definition initial_state : State :=
  {| isRecording := false; audioBlob := None; analysis := JNull; loading := false;
     error := None; mediaRecorderRef := None; audioChunksRef := [] |}.

Definition setIsRecording (b : bool) (st : State) : State :=
  {| isRecording := b; audioBlob := audioBlob st; analysis := analysis st;
     loading := loading st; error := error st;
     mediaRecorderRef := mediaRecorderRef st; audioChunksRef := audioChunksRef st |}.

Definition setAudioBlob (b : option Blob) (st : State) : State :=
  {| isRecording := isRecording st; audioBlob := b; analysis := analysis st;
     loading := loading st; error := error st;
     mediaRecorderRef := mediaRecorderRef st; audioChunksRef := audioChunksRef st |}.

Definition setAnalysis (v : JSValue) (st : State) : State :=
  {| isRecording := isRecording st; audioBlob := audioBlob st; analysis := v;
     loading := loading st; error := error st;
     mediaRecorderRef := mediaRecorderRef st; audioChunksRef := audioChunksRef st |}.

Definition setLoading (b : bool) (st : State) : State :=
  {| isRecording := isRecording st; audioBlob := audioBlob st; analysis := analysis st;
     loading := b; error := error st;
     mediaRecorderRef := mediaRecorderRef st; audioChunksRef := audioChunksRef st |}.

Definition setError (e : option string) (st : State) : State :=
  {| isRecording := isRecording st; audioBlob := audioBlob st; analysis := analysis st;
     loading := loading st; error := e;
     mediaRecorderRef := mediaRecorderRef st; audioChunksRef := audioChunksRef st |}.

Definition setMediaRecorder (r : option MediaRecorder) (st : State) : State :=
  {| isRecording := isRecording st; audioBlob := audioBlob st; analysis := analysis st;
     loading := loading st; error := error st;
     mediaRecorderRef := r; audioChunksRef := audioChunksRef st |}.

Definition setAudioChunks (l : list Blob) (st : State) : State :=
  {| isRecording := isRecording st; audioBlob := audioBlob st; analysis := analysis st;
     loading := loading st; error := error st;
     mediaRecorderRef := mediaRecorderRef st; audioChunksRef := l |}.

(** How the [try] block of [startRecording] goes: to its end; not past
    [getUserMedia] or [new MediaRecorder], which throws before anything is
    assigned (lines 16-17); or as far as [start()], which throws with the
    recorder and the empty chunk list already in the refs (line 30). *)
Inductive MediaAccess :=
| Granted (stream : nat)
| Denied (message : string)
| StartThrew (stream : nat) (message : string).

(** Lines 14-36. *)
Definition startRecording (access : MediaAccess) (st : State) : State :=
  match access with
  | Granted stream =>
      setError None
        (setIsRecording true
           (setAudioChunks []
              (setMediaRecorder (Some {| mr_stream := stream; mr_recording := true |}) st)))
  | Denied message => setError (Some ("Error accessing microphone: " ++ message)) st
  | StartThrew stream message =>
      setError (Some ("Error accessing microphone: " ++ message))
        (setAudioChunks []
           (setMediaRecorder (Some {| mr_stream := stream; mr_recording := false |}) st))
  end.

(** Lines 20-22: the recorder's [ondataavailable]. *)
Definition ondataavailable (data : Blob) (st : State) : State :=
  setAudioChunks (audioChunksRef st ++ [data]) st.

(** Lines 24-28: the recorder's [onstop]. *)
Definition onstop (st : State) : State :=
  setAudioBlob (Some (new_Blob (audioChunksRef st) "audio/wav")) st.

(** Lines 38-43. *)
Definition stopRecording (st : State) : State :=
  match mediaRecorderRef st with
  | Some r =>
      if isRecording st then
        setIsRecording false
          (setMediaRecorder (Some {| mr_stream := mr_stream r; mr_recording := false |}) st)
      else st
  | None => st
  end.

(** [s.startsWith(p)]. *)
Definition startsWith (s p : string) : bool := String.prefix p s.

(** Lines 73-81; [files] is [event.target.files], whose item 0 is
    [undefined] when the list is empty. *)
Definition handleFileUpload (files : list Blob) (st : State) : State :=
  match files with
  | file :: _ =>
      if startsWith (blob_type file) "audio/" then setError None (setAudioBlob (Some file) st)
      else setError (Some "Please select a valid audio file") st
  | [] => setError (Some "Please select a valid audio file") st
  end.

(** One entry of a FormData: [append(name, value, filename)]. *)
Record FormDataEntry := {
  fd_name : string;
  fd_value : Blob;
  fd_filename : string
}.

(** A request whose body is a FormData goes out as multipart/form-data. *)
Record Request := {
  req_url : string;
  req_method : string;
  req_body : list FormDataEntry
}.

(** A response: its status, and what [json()] settles with (the parsed body,
    or the message of the rejection). *)
Record Response := {
  status : Z;
  json : JSValue + string
}.

(** [response.ok]: a status in 200..299. *)
Definition response_ok (r : Response) : bool := (200 <=? status r)%Z && (status r <=? 299)%Z.

(** How [fetch] settles. *)
Inductive FetchOutcome :=
| Rejected (message : string)
| Resolved (r : Response).

(** The request failed: [fetch] rejected, or the status is not ok. *)
Definition failed (o : FetchOutcome) : Prop :=
  match o with
  | Rejected _ => True
  | Resolved r => response_ok r = false
  end.

(** Lines 46-58: up to the first [await]. [None] is the early return of
    line 46. *)
Definition analyzeAudio_begin (st : State) : option (State * Request) :=
  match audioBlob st with
  | None => None
  | Some blob =>
      Some (setError None (setLoading true st),
            {| req_url := "/api/analyze-voice";
               req_method := "POST";
               req_body := [{| fd_name := "audio"; fd_value := blob;
                               fd_filename := "recording.wav" |}] |})
  end.

(** Lines 60-70: after [fetch] has settled, on the state of that moment. *)
Definition analyzeAudio_settle (o : FetchOutcome) (st : State) : State :=
  let caught message := setError (Some ("Error analyzing audio: " ++ message)) st in
  setLoading false
    match o with
    | Rejected message => caught message
    | Resolved r =>
        if response_ok r then
          match json r with
          | inl result => setAnalysis result st
          | inr message => caught message
          end
        else caught "Analysis failed"
    end.

(** What the user can do, and the recorder can fire, while a request is in
    flight (the Analyze button is disabled then, line 155). *)
Inductive UIEvent :=
| EStartRecording (access : MediaAccess)
| EDataAvailable (data : Blob)
| EStopRecording
| ERecorderStopped
| EFileUpload (files : list Blob).

Definition handle (st : State) (e : UIEvent) : State :=
  match e with
  | EStartRecording access => startRecording access st
  | EDataAvailable data => ondataavailable data st
  | EStopRecording => stopRecording st
  | ERecorderStopped => onstop st
  | EFileUpload files => handleFileUpload files st
  end.

Definition run_events (events : list UIEvent) (st : State) : State :=
  fold_left handle events st.

(** [analyzeAudio] from click to completion, with [events] handled while
    the request is in flight. *)
Definition analyzeAudio (events : list UIEvent) (o : FetchOutcome) (st : State) : State :=
  match analyzeAudio_begin st with
  | None => st
  | Some (st1, _) => analyzeAudio_settle o (run_events events st1)
  end.

(** Line 155: [disabled={!audioBlob || loading}]. *)
Definition analyze_disabled (st : State) : bool :=
  negb (bool_decide (is_Some (audioBlob st))) || loading st.

(** Lines 182-262: the results section as rendered from a state. *)
Definition results_section (shortest_digits : Q -> string) (st : State) : Completion Node :=
  results_panel shortest_digits (analysis st).

(** ** The rest of the page, and the page as a system *)

(** [error] as the value the JSX reads: [null] or a string. *)
Definition error_value (st : State) : JSValue :=
  match error st with
  | Some message => JStr message
  | None => JNull
  end.

(** Lines 173-177: [{error && (<div>...{error}...</div>)}]. *)
Definition error_box (st : State) : Node :=
  if ToBoolean (error_value st) then
    NElem "div" "bg-red-50 border border-red-200 rounded-lg p-3"
      [NElem "p" "text-red-700 text-sm" [NExpr (error_value st)]]
  else NExpr (error_value st).

(** Line 109: [onClick={isRecording ? stopRecording : startRecording}];
    [access] is how the [startRecording] it may trigger goes. *)
Definition record_click (access : MediaAccess) (st : State) : State :=
  if isRecording st then stopRecording st else startRecording access st.

(** What [x?.toFixed(d)] takes without throwing: [undefined], [null] and
    Numbers. *)
Definition formattable (v : JSValue) : bool :=
  match v with
  | JUndefined | JNull | JNum _ => true
  | _ => false
  end.

(** The fields the card formats with [toFixed] (lines 198, 208, 234). *)
Definition formatted_fields : list string := ["cadence"; "pitch_mean"; "pitch_std"].

(** What can happen to the page: an event of the recorder or of the file
    input, a click on the Analyze button, or the settling of the oldest
    request in flight. *)
Inductive Action :=
| AEvent (e : UIEvent)
| AClickAnalyze
| AFetchSettled (o : FetchOutcome).

(** The component's state together with the requests [fetch] has sent and
    not yet settled. *)
Record App := {
  ui : State;
  in_flight : list Request
}.

Definition initial_app : App := {| ui := initial_state; in_flight := [] |}.

(** Lines 153-155: a disabled button fires no [onClick]; otherwise
    [analyzeAudio] runs up to its [fetch]. *)
Definition click_analyze (app : App) : App :=
  if analyze_disabled (ui app) then app
  else
    match analyzeAudio_begin (ui app) with
    | Some (st1, request) => {| ui := st1; in_flight := (in_flight app ++ [request])%list |}
    | None => app
    end.

(** Lines 60-70 run when the request settles; with nothing in flight there
    is nothing to settle. *)
Definition fetch_settled (o : FetchOutcome) (app : App) : App :=
  match in_flight app with
  | [] => app
  | _ :: rest => {| ui := analyzeAudio_settle o (ui app); in_flight := rest |}
  end.

Definition step (app : App) (a : Action) : App :=
  match a with
  | AEvent e => {| ui := handle (ui app) e; in_flight := in_flight app |}
  | AClickAnalyze => click_analyze app
  | AFetchSettled o => fetch_settled o app
  end.

Definition run (actions : list Action) (app : App) : App := fold_left step actions app.

(** The request of lines 52-58 for some clip of an audio type. *)
Definition posts_audio_clip (request : Request) : Prop :=
  exists blob,
    startsWith (blob_type blob) "audio/" = true
    /\ request
       = {| req_url := "/api/analyze-voice";
            req_method := "POST";
            req_body := [{| fd_name := "audio"; fd_value := blob;
                            fd_filename := "recording.wav" |}] |}.

(** What every state the page can reach satisfies. *)
Definition consistent (app : App) : Prop :=
  (length (in_flight app) <= 1)%nat
  /\ (loading (ui app) = true <-> in_flight app <> [])
  /\ (isRecording (ui app) = true -> is_Some (mediaRecorderRef (ui app)))
  /\ (forall blob, audioBlob (ui app) = Some blob ->
      startsWith (blob_type blob) "audio/" = true)
  /\ (forall request, In request (in_flight app) -> posts_audio_clip request)
  /\ error (ui app) <> Some "".

(** ** What React puts on the page *)

(** What React does with the element tree the component returns: the text
    it puts on the page, piece by piece in document order (literal text as
    it is, an expression child through [child_text], the children of an
    element one after the other), or its throw on a plain object among the
    children. *)
Fixpoint node_texts (sd : Q -> string) (n : Node) : Completion (list string) :=
  match n with
  | NText s => Normal [s]
  | NExpr v => t ← child_text sd v; Normal [t]
  | NElem _ _ children =>
      (fix items (l : list Node) : Completion (list string) :=
         match l with
         | [] => Normal []
         | c :: l' => a ← node_texts sd c; b ← items l'; Normal (a ++ b)%list
         end) children
  end.

(** Rendering from the component's call to the DOM: the throw of the
    component function, else the throw of React, else the text nodes. *)
Definition mounted (sd : Q -> string) (c : Completion Node) : Completion (list string) :=
  n ← c; node_texts sd n.

(** A value React takes as a child: anything but a plain object, or an
    array that holds one at any depth. *)
Fixpoint renderable (v : JSValue) : bool :=
  match v with
  | JObj _ => false
  | JArr xs =>
      (fix all (l : list JSValue) : bool :=
         match l with
         | [] => true
         | x :: l' => renderable x && all l'
         end) xs
  | _ => true
  end.

(** The fields the card hands to React as they are (lines 219, 223, 238,
    242, 251). *)
Definition child_fields : list string :=
  ["cough_count"; "sneeze_count"; "tone_quality"; "speech_rate"; "health_insights"].

(** What the card is to show for a record of the section 6 shape, field by
    field: a number through [toFixed] or N/A for null, a count as a number,
    a label or its fallback when it is empty, the insights under their
    heading unless they are empty. *)
Definition shown_number (sd : Q -> string) (x : option Q) (f : nat) : string :=
  match x with
  | Some q => toFixed sd (Fin q) f
  | None => "N/A"
  end.

Definition shown_count (sd : Q -> string) (z : Z) : string :=
  Number_toString sd (Fin (inject_Z z)).

Definition shown_label (s fallback : string) : string :=
  if String.eqb s "" then fallback else s.

Definition card_texts (sd : Q -> string) (r : AnalysisResult) : list string :=
  (["Cadence"; shown_number sd (cadence r) 1; " "; "WPM";
    "Pitch"; shown_number sd (pitch_mean r) 0; " "; "Hz";
    "Respiratory Events";
    "Coughs detected:"; shown_count sd (cough_count r);
    "Sneezes detected:"; shown_count sd (sneeze_count r);
    "Voice Characteristics";
    "Pitch Variation:"; shown_number sd (pitch_std r) 1; " Hz";
    "Tone Quality:"; shown_label (tone_quality r) "Normal";
    "Speech Rate:"; shown_label (speech_rate r) "N/A"]
   ++ (if String.eqb (health_insights r) "" then [""]
       else ["Health Insights"; health_insights r]))%list.

(** A record with a null, a zero count and an empty label. *)
Definition sample_record : AnalysisResult :=
  {| cadence := Some 120%Q; pitch_mean := Some (3701 # 20)%Q; pitch_std := None;
     cough_count := 2%Z; sneeze_count := 0%Z; tone_quality := "Breathy";
     speech_rate := ""; health_insights := "Two coughs detected." |}.

(** ** The analysis engine *)

Module Engine.

#[local] Open Scope Q_scope.

(** Modelled from the spec: the error kinds of the engine (design document,
    section 7); the engine's code is not among the source files.
    [SilentInput] is no error: it ends in a valid record. *)
Inductive EngineError :=
| UnsupportedFormat
| ProcessingTimeout
| InternalComputationError.

(** Modelled from the spec: the Waveform of section 3, samples and sample
    rate in Hz. *)
Record Waveform := {
  samples : list Q;
  sample_rate : Z
}.

(** Modelled from the spec: a Frame, a slice of the waveform with its start
    offset (section 3). *)
Record Frame := {
  start : nat;
  window : list Q
}.

(** Modelled from the spec: FrameFeatures (section 3), with the spectral
    centroid section 4.4 computes per frame. [f0 = None] is "unvoiced". *)
Record FrameFeatures := {
  energy : Q;
  isVoiced : bool;
  f0 : option Q;
  spectralFlatness : Q;
  spectralCentroid : Q
}.

(** Modelled from the spec: the two classes of an Event (section 3). *)
Inductive Classification :=
| cough
| sneeze.

(** Modelled from the spec: an Event (section 3); times are counted in
    frames of the hop. *)
Record Event := {
  startFrame : nat;
  durationFrames : nat;
  peakEnergy : Q;
  eventCentroid : Q;
  classification : Classification
}.

(** Modelled from the spec: the threshold constants of section 9 as one
    configuration structure; the document fixes none of their values. *)
Record Config := {
  min_sample_rate : Z;
  silence_floor : Q;
  peak_target : Q;
  frame_ms : Z;
  hop_ms : Z;
  voicing_ratio : Q;
  max_gap_frames : nat;
  syllables_per_word : Q;
  burst_energy : Q;
  flatness_min : Q;
  min_event_frames : nat;
  max_event_frames : nat;
  sneeze_max_frames : nat;
  sneeze_min_centroid : Q;
  jitter_stable : Q;
  jitter_variable : Q;
  wpm_slow : Q;
  wpm_fast : Q;
  cough_alert : N;
  sneeze_alert : N;
  note_baseline : string;
  note_coughs : string;
  note_sneezes : string;
  note_fast : string;
  note_slow : string;
  note_variable : string
}.

(** Modelled from the spec: the numeric kernels the document names and
    leaves to the implementer: the square root behind RMS energy and the
    standard deviation, the clip's noise floor, the f0 estimator of section
    4.2, spectral flatness and centroid of section 4.4, and the peak picking
    of section 4.3 on a segment's energy envelope. *)
Record Kernels := {
  sqrtQ : Q -> Q;
  noise_floor : list Q -> Q;
  estimate_f0 : Z -> list Q -> Q;
  flatness : list Q -> Q;
  centroid : Z -> list Q -> Q;
  syllable_peaks : list Q -> nat
}.

(** Strictly below, as a test. *)
Definition Qltb (a b : Q) : bool := negb (Qle_bool b a).

Definition Qsum (l : list Q) : Q := fold_right Qplus 0 l.

Definition Qlen (l : list Q) : Q := inject_Z (Z.of_nat (length l)).

(** Modelled from the spec: the arithmetic mean (sections 4.1 and 4.2); 0 on
    the empty list, where nothing is divided. *)
Definition mean (l : list Q) : Q :=
  match l with
  | [] => 0
  | _ => Qsum l / Qlen l
  end.

(** *** 4.1 Waveform Preprocessor *)

(** Modelled from the spec: section 4.1, remove DC bias (subtract mean). *)
Definition remove_dc (xs : list Q) : list Q := map (fun x => x - mean xs) xs.

(** Modelled from the spec: section 4.1, the peak amplitude of the clip. *)
Definition peak (xs : list Q) : Q := fold_right (fun x m => Qmax (Qabs x) m) 0 xs.

(** Modelled from the spec: section 4.1, normalize peak amplitude to a fixed
    target; called with a non-zero peak only. *)
Definition normalize (target pk : Q) (xs : list Q) : list Q :=
  map (fun x => x * target / pk) xs.

(** Modelled from the spec: section 4.1, the window in samples. *)
Definition frame_length (cfg : Config) (sr : Z) : nat := Z.to_nat (sr * frame_ms cfg / 1000).

(** Modelled from the spec: section 4.1, the hop in samples, at least one. *)
Definition hop_length (cfg : Config) (sr : Z) : nat :=
  Nat.max 1 (Z.to_nat (sr * hop_ms cfg / 1000)).

Definition slice (xs : list Q) (from len : nat) : list Q := firstn len (skipn from xs).

(** Modelled from the spec: section 4.1, split into frames of one window
    every hop; a clip shorter than one frame is a single frame covering it. *)
Definition split_frames (len hop : nat) (xs : list Q) : list Frame :=
  if (length xs <? len)%nat then [{| start := 0; window := xs |}]
  else
    map (fun i => {| start := i * hop; window := slice xs (i * hop) len |})
        (seq 0 ((length xs - len) / hop + 1)).

Section WithKernels.

Variable K : Kernels.
Variable cfg : Config.

(** Modelled from the spec: section 4.1, per-frame RMS energy. *)
Definition rms (xs : list Q) : Q := sqrtQ K (mean (map (fun x => x * x) xs)).

(** Modelled from the spec: sections 4.1, 4.2 and 4.4: per frame its energy,
    the voicing flag against the clip's own noise floor, f0 on the voiced
    frames only, flatness and centroid. *)
Definition frame_features (sr : Z) (frames : list Frame) : list FrameFeatures :=
  let floor := noise_floor K (map (fun f => rms (window f)) frames) in
  map (fun f =>
         let e := rms (window f) in
         let v := Qltb (voicing_ratio cfg * floor) e in
         {| energy := e;
            isVoiced := v;
            f0 := if v then Some (estimate_f0 K sr (window f)) else None;
            spectralFlatness := flatness K (window f);
            spectralCentroid := centroid K sr (window f) |})
      frames.

(** Modelled from the spec: how preprocessing ends (sections 4.1 and 7). *)
Inductive Preprocessed :=
| Failed (e : EngineError)
| SilentInput
| Frames (fs : list FrameFeatures).

(** Modelled from the spec: section 4.1 in the order it lists its steps:
    the sample-rate check, DC removal, the silence test before the division
    by the peak, normalization, framing, features. *)
Definition preprocess (w : Waveform) : Preprocessed :=
  if (sample_rate w <? min_sample_rate cfg)%Z then Failed UnsupportedFormat
  else
    let xs := remove_dc (samples w) in
    let pk := peak xs in
    if Qeq_bool pk 0 || Qle_bool pk (silence_floor cfg) then SilentInput
    else
      Frames
        (frame_features (sample_rate w)
           (split_frames (frame_length cfg (sample_rate w)) (hop_length cfg (sample_rate w))
              (normalize (peak_target cfg) pk xs))).

(** *** 4.2 Pitch Tracker: the statistics *)

(** Modelled from the spec: section 4.2, the f0 series: unvoiced frames are
    left out, not counted as 0. *)
Definition voiced_f0 (fs : list FrameFeatures) : list Q := omap f0 fs.

(** Sum of squared deviations from the mean. *)
Definition sum_sq_dev (l : list Q) : Q := Qsum (map (fun x => (x - mean l) * (x - mean l)) l).

(** Modelled from the spec: section 4.2, the square of the sample standard
    deviation (divisor n - 1). *)
Definition sample_variance (l : list Q) : Q := sum_sq_dev l / (Qlen l - 1).

(** Modelled from the spec: section 4.2, pitch_mean: the mean f0 over the
    voiced frames, unavailable without any. *)
Definition pitch_mean_of (l : list Q) : option Q :=
  match l with
  | [] => None
  | _ => Some (Qred (mean l))
  end.

(** Modelled from the spec: section 4.2, pitch_std: unavailable without
    voiced frames; with a single one the sample deviation divides by zero,
    and the branch degrades to unavailable (section 7). *)
Definition pitch_std_of (l : list Q) : option Q :=
  match l with
  | [] | [_] => None
  | _ => Some (Qred (sqrtQ K (sample_variance l)))
  end.

(** *** 4.3 Cadence Estimator *)

(** Modelled from the spec: section 4.3, gap closing.  [cur] is the open
    segment (most recent frame first) and [gap] the unvoiced frames seen
    since its last voiced one; a gap that reaches [max_gap_frames] ends the
    segment, a shorter one is absorbed into it. *)
Fixpoint segments_from (cur : option (list FrameFeatures * list FrameFeatures))
    (fs : list FrameFeatures) : list (list FrameFeatures) :=
  match fs with
  | [] =>
      match cur with
      | Some (seg, _) => [rev seg]
      | None => []
      end
  | f :: fs' =>
      if isVoiced f then
        match cur with
        | Some (seg, gap) => segments_from (Some (f :: gap ++ seg, [])) fs'
        | None => segments_from (Some ([f], [])) fs'
        end
      else
        match cur with
        | Some (seg, gap) =>
            if (max_gap_frames cfg <=? S (length gap))%nat
            then rev seg :: segments_from None fs'
            else segments_from (Some (seg, f :: gap)) fs'
        | None => segments_from None fs'
        end
  end.

(** Modelled from the spec: the SpeechSegments of a clip (section 4.3). *)
Definition speech_segments (fs : list FrameFeatures) : list (list FrameFeatures) :=
  segments_from None fs.

(** Modelled from the spec: speaking time, the sum of the segment durations,
    in frames. *)
Definition speaking_frames (segs : list (list FrameFeatures)) : nat :=
  list_sum (map (@length _) segs).

(** Modelled from the spec: the syllable proxy count, peaks picked per
    segment on its energy envelope. *)
Definition syllables (segs : list (list FrameFeatures)) : nat :=
  list_sum (map (fun seg => syllable_peaks K (map energy seg)) segs).

(** Modelled from the spec: section 4.3, cadence: estimated words per minute
    of speaking time; the clip's length plays no part; unavailable at zero
    speaking time. *)
Definition cadence_of (fs : list FrameFeatures) : option Q :=
  let segs := speech_segments fs in
  let minutes := inject_Z (Z.of_nat (speaking_frames segs) * hop_ms cfg) / 60000 in
  if Qle_bool minutes 0 || Qeq_bool (syllables_per_word cfg) 0 then None
  else
    Some (Qred (inject_Z (Z.of_nat (syllables segs)) / syllables_per_word cfg / minutes)).

(** *** 4.4 Respiratory Event Detector *)

(** Modelled from the spec: section 4.4, a frame is flagged when its energy
    exceeds the burst threshold and its flatness the broadness threshold. *)
Definition flagged (f : FrameFeatures) : bool :=
  Qltb (burst_energy cfg) (energy f) && Qltb (flatness_min cfg) (spectralFlatness f).

(** Modelled from the spec: section 4.4, consecutive flagged frames grouped
    into runs, each with the index of its first frame; [cur] is the open
    run, most recent frame first. *)
Fixpoint runs_from (i : nat) (cur : list FrameFeatures) (fs : list FrameFeatures)
    : list (nat * list FrameFeatures) :=
  match fs with
  | [] =>
      match cur with
      | [] => []
      | _ => [((i - length cur)%nat, rev cur)]
      end
  | f :: fs' =>
      if flagged f then runs_from (S i) (f :: cur) fs'
      else
        match cur with
        | [] => runs_from (S i) [] fs'
        | _ => ((i - length cur)%nat, rev cur) :: runs_from (S i) [] fs'
        end
  end.

(** Modelled from the spec: section 4.4, the minimum and maximum duration of
    an event. *)
Definition keeps_duration (run : nat * list FrameFeatures) : bool :=
  (min_event_frames cfg <=? length (snd run))%nat
  && (length (snd run) <=? max_event_frames cfg)%nat.

(** Modelled from the spec: section 4.4, the heuristic: sneezes are the
    shorter events with the higher centroid. *)
Definition classify (run : list FrameFeatures) : Classification :=
  if (length run <=? sneeze_max_frames cfg)%nat
     && Qltb (sneeze_min_centroid cfg) (mean (map spectralCentroid run))
  then sneeze else cough.

(** Modelled from the spec: the Event of a run (section 3). *)
Definition event_of (run : nat * list FrameFeatures) : Event :=
  {| startFrame := fst run;
     durationFrames := length (snd run);
     peakEnergy := peak (map energy (snd run));
     eventCentroid := Qred (mean (map spectralCentroid (snd run)));
     classification := classify (snd run) |}.

(** Modelled from the spec: section 4.4, the ordered sequence of Events. *)
Definition detect_events (fs : list FrameFeatures) : list Event :=
  map event_of (List.filter keeps_duration (runs_from 0 [] fs)).


Definition is_cough (e : Event) : bool :=
  match classification e with
  | cough => true
  | sneeze => false
  end.

(** Modelled from the spec: section 4.4, cough_count: a tally by
    classification. *)
Definition count_coughs (es : list Event) : Z :=
  Z.of_nat (length (List.filter is_cough es)).

(** Modelled from the spec: section 4.4, sneeze_count. *)
Definition count_sneezes (es : list Event) : Z :=
  Z.of_nat (length (List.filter (fun e => negb (is_cough e)) es)).

(** *** 4.5 Voice Quality Scorer *)

(** Frame-to-frame changes of f0, in absolute value. *)
Fixpoint abs_diffs (l : list Q) : list Q :=
  match l with
  | x :: (y :: _) as t => Qabs (y - x) :: abs_diffs t
  | _ => []
  end.

(** Modelled from the spec: section 4.5, relative jitter: mean absolute
    frame-to-frame change of f0 over the mean f0; unavailable below two
    voiced frames or at a zero mean. *)
Definition jitter_of (l : list Q) : option Q :=
  match abs_diffs l with
  | [] => None
  | d => if Qeq_bool (mean l) 0 then None else Some (mean d / mean l)
  end.

(** Modelled from the spec: section 4.5, the tone label; Normal is the
    baseline when jitter is unavailable. *)
Definition tone_label (j : option Q) : string :=
  match j with
  | None => "Normal"
  | Some j =>
      if Qltb j (jitter_stable cfg) then "Stable"
      else if Qltb (jitter_variable cfg) j then "Variable"
      else "Normal"
  end.

(** Modelled from the spec: section 4.5, the speech-rate label: below
    [wpm_slow] Slow, above [wpm_fast] Fast, else Normal. *)
Definition rate_label (c : option Q) : string :=
  match c with
  | None => "unavailable"
  | Some wpm =>
      if Qltb wpm (wpm_slow cfg) then "Slow"
      else if Qltb (wpm_fast cfg) wpm then "Fast"
      else "Normal"
  end.

(** *** 4.6 Report Assembler *)

(** Modelled from the spec: section 4.6, one clause per threshold crossed. *)
Definition insight_clauses (coughs sneezes : Z) (tone rate : string) : list string :=
  (if (Z.of_N (cough_alert cfg) <? coughs)%Z then [note_coughs cfg] else [])
  ++ (if (Z.of_N (sneeze_alert cfg) <? sneezes)%Z then [note_sneezes cfg] else [])
  ++ (if String.eqb rate "Fast" then [note_fast cfg] else [])
  ++ (if String.eqb rate "Slow" then [note_slow cfg] else [])
  ++ (if String.eqb tone "Variable" then [note_variable cfg] else []).

(** Modelled from the spec: section 4.6, the insight text: the clauses, or
    the baseline note when no threshold was crossed. *)
Definition insight_text (clauses : list string) : string :=
  match clauses with
  | [] => note_baseline cfg
  | _ => String.concat " " clauses
  end.

(** Modelled from the spec: what the Pitch Tracker hands on: the statistics,
    and the f0 series the scorer consumes. *)
Record PitchStats := {
  ps_mean : option Q;
  ps_std : option Q;
  ps_series : list Q
}.

(** Modelled from the spec: the Pitch Tracker branch (section 4.2). *)
Definition pitch_branch (fs : list FrameFeatures) : PitchStats :=
  let l := voiced_f0 fs in
  {| ps_mean := pitch_mean_of l; ps_std := pitch_std_of l; ps_series := l |}.

(** Modelled from the spec: section 4.6, the Report Assembler, with the
    scorer of section 4.5 run at the join. *)
Definition assemble (p : PitchStats) (c : option Q) (es : list Event) : AnalysisResult :=
  let tone := tone_label (jitter_of (ps_series p)) in
  let rate := rate_label c in
  {| cadence := c;
     pitch_mean := ps_mean p;
     pitch_std := ps_std p;
     cough_count := count_coughs es;
     sneeze_count := count_sneezes es;
     tone_quality := tone;
     speech_rate := rate;
     health_insights :=
       insight_text (insight_clauses (count_coughs es) (count_sneezes es) tone rate) |}.

(** *** Section 5: fan-out over the three branches, fan-in at the join *)

(** Modelled from the spec: the three independent branches of section 5. *)
Inductive Branch :=
| PitchBranch
| CadenceBranch
| EventBranch.

(** Modelled from the spec: the join point of section 5: one slot per
    branch, filled when the branch has run. *)
Record Join := {
  pitch_slot : option PitchStats;
  cadence_slot : option (option Q);
  event_slot : option (list Event)
}.

Definition empty_join : Join :=
  {| pitch_slot := None; cadence_slot := None; event_slot := None |}.

(** Modelled from the spec: one branch runs on the read-only frames and
    delivers to its slot. *)
Definition run_branch (fs : list FrameFeatures) (j : Join) (b : Branch) : Join :=
  match b with
  | PitchBranch =>
      {| pitch_slot := Some (pitch_branch fs); cadence_slot := cadence_slot j;
         event_slot := event_slot j |}
  | CadenceBranch =>
      {| pitch_slot := pitch_slot j; cadence_slot := Some (cadence_of fs);
         event_slot := event_slot j |}
  | EventBranch =>
      {| pitch_slot := pitch_slot j; cadence_slot := cadence_slot j;
         event_slot := Some (detect_events fs) |}
  end.

(** Modelled from the spec: the branches run in the order the scheduler
    picked (section 5). *)
Definition fan_out (order : list Branch) (fs : list FrameFeatures) : Join :=
  fold_left (run_branch fs) order empty_join.

(** Modelled from the spec: scorer and assembler run once every branch has
    delivered (section 5). *)
Definition fan_in (j : Join) : EngineError + AnalysisResult :=
  match pitch_slot j, cadence_slot j, event_slot j with
  | Some p, Some c, Some es => inr (assemble p c es)
  | _, _, _ => inl InternalComputationError
  end.

(** Modelled from the spec: one run of the engine under a schedule of its
    branches.  Silent input is analysed as a clip with no frames: nothing
    was measured (section 7). *)
Definition analyze_scheduled (order : list Branch) (w : Waveform)
    : EngineError + AnalysisResult :=
  match preprocess w with
  | Failed e => inl e
  | SilentInput => fan_in (fan_out order [])
  | Frames fs => fan_in (fan_out order fs)
  end.

(** Modelled from the spec: the engine, waveform to record (section 6), in
    serial execution. *)
Definition analyze (w : Waveform) : EngineError + AnalysisResult :=
  analyze_scheduled [PitchBranch; CadenceBranch; EventBranch] w.

(** A schedule is complete when every branch is on it. *)
Definition complete (order : list Branch) : Prop := forall b : Branch, In b order.

End WithKernels.



(** The frames the branches run on: none for an input that was refused,
    an empty sequence for a silent one. *)
Definition frames_analysed (K : Kernels) (cfg : Config) (w : Waveform)
    : option (list FrameFeatures) :=
  match preprocess K cfg w with
  | Failed _ => None
  | SilentInput => Some []
  | Frames fs => Some fs
  end.






(** *** Stand-in kernels, for running the model on concrete clips *)

(** Square root to six decimals. *)
Definition demo_sqrt (q : Q) : Q :=
  Z.sqrt (Qnum q * 10 ^ 12 / Z.pos (Qden q)) # 10 ^ 6.

Definition demo_floor (energies : list Q) : Q :=
  match energies with
  | [] => 0
  | e :: es => fold_right Qmin e es
  end.

(** Sign changes between neighbouring samples. *)
Fixpoint zero_crossings (xs : list Q) : nat :=
  match xs with
  | x :: (y :: _) as t =>
      ((if Qltb (x * y) 0 then 1 else 0) + zero_crossings t)%nat
  | _ => O
  end.

(** Crossing rate, between 0 and 1: high for noise, low for a tone. *)
Definition demo_flatness (xs : list Q) : Q :=
  match xs with
  | [] => 0
  | _ => inject_Z (Z.of_nat (zero_crossings xs)) / Qlen xs
  end.

(** The frequency the crossing rate corresponds to. *)
Definition demo_f0 (sr : Z) (xs : list Q) : Q := inject_Z sr * demo_flatness xs / 2.

(** Strict local maxima of an envelope. *)
Fixpoint demo_peaks (env : list Q) : nat :=
  match env with
  | a :: (b :: (c :: _) as t') as t =>
      ((if Qltb a b && Qltb c b then 1 else 0) + demo_peaks t)%nat
  | _ => O
  end.

Definition demo_kernels : Kernels :=
  {| sqrtQ := demo_sqrt; noise_floor := demo_floor; estimate_f0 := demo_f0;
     flatness := demo_flatness; centroid := demo_f0; syllable_peaks := demo_peaks |}.

(** The document's example values where they fit a short clip (4 kHz,
    110 and 160 WPM), with 1 ms frames and durations of a few frames. *)
Definition demo_config : Config :=
  {| min_sample_rate := 4000; silence_floor := 0; peak_target := 1;
     frame_ms := 1; hop_ms := 1; voicing_ratio := 2;
     max_gap_frames := 2; syllables_per_word := 3 # 2;
     burst_energy := 1 # 2; flatness_min := 1 # 2;
     min_event_frames := 1; max_event_frames := 3;
     sneeze_max_frames := 1; sneeze_min_centroid := 1000;
     jitter_stable := 1 # 100; jitter_variable := 5 # 100;
     wpm_slow := 110; wpm_fast := 160;
     cough_alert := 3; sneeze_alert := 3;
     note_baseline := "No notable findings.";
     note_coughs := "Frequent coughing detected.";
     note_sneezes := "Frequent sneezing detected.";
     note_fast := "Speech is faster than usual.";
     note_slow := "Speech is slower than usual.";
     note_variable := "Pitch is unsteady." |}.


(** Four samples, one millisecond at 4 kHz and one hop of 10 ms at
    400 Hz: a broadband burst, a tone at half the burst's crossing rate,
    the tone at twice the amplitude, and silence. *)
Definition burst : list Q := [1; -1; 1; -1].
Definition tone : list Q := [1; 1; -1; -1].

Definition clip (xs : list Q) : Waveform := {| samples := xs; sample_rate := 4000 |}.



(** Two bursts of equal energy: nothing rises above the noise floor. *)
Definition level_clip : Waveform := clip (burst ++ burst).







End Engine.

(** * Properties of the component *)

(** ** The record and the fields the results section reads *)

Lemma to_json_dom (r : AnalysisResult) : dom (to_json r) = list_to_set result_fields.
Proof.
  unfold to_json, result_fields.
  rewrite !dom_insert_L, dom_empty_L. simpl. set_solver.
Qed.

Lemma is_integer_JNumZ (z : Z) : is_integer (JNumZ z) = true.
Proof. unfold JNumZ, is_integer. rewrite Qfloor_Z. apply Qeq_bool_refl. Qed.

Lemma results_panel_object (sd : Q -> string) (o : gmap string JSValue) :
  results_panel sd (JObj o) = analysis_card sd (JObj o).
Proof. reflexivity. Qed.

(** Two objects that agree on the eight fields render alike. *)
Lemma analysis_card_ext (sd : Q -> string) (o1 o2 : gmap string JSValue) :
  (forall k, k ∈ result_fields -> o1 !! k = o2 !! k) ->
  analysis_card sd (JObj o1) = analysis_card sd (JObj o2).
Proof.
  intros H.
  unfold analysis_card, cadence_cell, pitch_mean_cell, cough_count_cell,
    sneeze_count_cell, pitch_std_cell, tone_quality_cell, speech_rate_cell,
    health_insights_block, get.
  rewrite !H by (unfold result_fields; set_solver).
  reflexivity.
Qed.

(** Each of the eight fields shows: setting it alone changes the card. *)
Lemma analysis_card_reads (sd : Q -> string) (k : string) :
  k ∈ result_fields ->
  exists v, analysis_card sd (JObj {[ k := v ]}) <> analysis_card sd (JObj ∅).
Proof.
  unfold result_fields. intros H.
  repeat (apply elem_of_cons in H as [-> | H]);
    [exists (JNum (Fin 1)); vm_compute; congruence .. | inversion H].
Qed.

(** C1: the record of section 6 serialises to an object with exactly the
    eight keys cadence, pitch_mean, pitch_std (number or null), cough_count,
    sneeze_count (integers), tone_quality, speech_rate, health_insights
    (strings); and these eight are exactly what the results section reads:
    objects that agree on them render alike, and each one of them changes
    what is rendered. *)
Theorem result_fields_are_the_fields_rendered :
  result_fields =
    ["cadence"; "pitch_mean"; "pitch_std"; "cough_count"; "sneeze_count";
     "tone_quality"; "speech_rate"; "health_insights"]
  /\ NoDup result_fields
  /\ (forall r : AnalysisResult,
        dom (to_json r) = list_to_set result_fields
        /\ (exists c pm ps cc sc tq sr hi,
              to_json r !! "cadence" = Some c /\ is_number_or_null c = true
              /\ to_json r !! "pitch_mean" = Some pm /\ is_number_or_null pm = true
              /\ to_json r !! "pitch_std" = Some ps /\ is_number_or_null ps = true
              /\ to_json r !! "cough_count" = Some cc /\ is_integer cc = true
              /\ to_json r !! "sneeze_count" = Some sc /\ is_integer sc = true
              /\ to_json r !! "tone_quality" = Some tq /\ is_string tq = true
              /\ to_json r !! "speech_rate" = Some sr /\ is_string sr = true
              /\ to_json r !! "health_insights" = Some hi /\ is_string hi = true))
  /\ (forall (sd : Q -> string) (o1 o2 : gmap string JSValue),
        (forall k, k ∈ result_fields -> o1 !! k = o2 !! k) ->
        results_panel sd (JObj o1) = results_panel sd (JObj o2))
  /\ (forall (sd : Q -> string) (k : string),
        k ∈ result_fields ->
        exists v, results_panel sd (JObj {[ k := v ]}) <> results_panel sd (JObj ∅)).
Proof.
  split; [reflexivity |].
  split.
  { apply (bool_decide_unpack _). vm_compute. reflexivity. }
  split.
  { intros r. split; [apply to_json_dom |].
    exists (json_number_or_null (cadence r)), (json_number_or_null (pitch_mean r)),
      (json_number_or_null (pitch_std r)), (JNumZ (cough_count r)),
      (JNumZ (sneeze_count r)), (JStr (tone_quality r)), (JStr (speech_rate r)),
      (JStr (health_insights r)).
    split; [reflexivity |]. split; [destruct (cadence r); reflexivity |].
    split; [reflexivity |]. split; [destruct (pitch_mean r); reflexivity |].
    split; [reflexivity |]. split; [destruct (pitch_std r); reflexivity |].
    split; [reflexivity |]. split; [apply is_integer_JNumZ |].
    split; [reflexivity |]. split; [apply is_integer_JNumZ |].
    repeat (split; [reflexivity |]). reflexivity. }
  split.
  { intros sd o1 o2 H. rewrite !results_panel_object. apply analysis_card_ext, H. }
  intros sd k H. rewrite !results_panel_object. apply analysis_card_reads, H.
Qed.

(** A run of C1 on a concrete record and a concrete pair of objects. *)
Lemma result_fields_are_the_fields_rendered_witness :
  dom (to_json {| cadence := Some 120%Q; pitch_mean := None; pitch_std := None;
                  cough_count := 2%Z; sneeze_count := 0%Z; tone_quality := "Stable";
                  speech_rate := "Normal"; health_insights := "" |})
    = list_to_set result_fields
  /\ results_panel (fun _ => "") (JObj (<["extra" := JBool true]> {[ "cadence" := JNull ]}))
     = results_panel (fun _ => "") (JObj {[ "cadence" := JNull ]}).
Proof.
  destruct result_fields_are_the_fields_rendered as (_ & _ & Hshape & Hext & _).
  split.
  - apply Hshape.
  - apply Hext. intros k Hk. unfold result_fields in Hk.
    repeat (apply elem_of_cons in Hk as [-> | Hk]); try reflexivity.
    inversion Hk.
Defined.

(** ** [null] against [0] *)

Lemma Qlt_not_zero (q : Q) : (q == 0)%Q -> ~ (q < 0)%Q.
Proof. intros Hq Hlt. rewrite Hq in Hlt. exact (Qlt_irrefl 0 Hlt). Qed.

(** [toFixed] sees the value of a number, not the fraction that writes it. *)
Lemma toFixed_zero (sd : Q -> string) (q : Q) (f : nat) :
  (q == 0)%Q -> toFixed sd (Fin q) f = toFixed sd (Fin 0) f.
Proof.
  intros Hq. unfold toFixed.
  destruct (Qlt_le_dec q 0) as [Hlt | _]; [destruct (Qlt_not_zero q Hq Hlt) |].
  destruct (Qlt_le_dec 0 0) as [Hlt | _]; [destruct (Qlt_irrefl 0 Hlt) |].
  assert (Ha : (Qabs q == Qabs 0)%Q) by (rewrite Hq; reflexivity).
  assert (E1 : Qle_bool (inject_Z (10 ^ 21)) (Qabs q)
               = Qle_bool (inject_Z (10 ^ 21)) (Qabs 0)).
  { apply eq_true_iff_eq. rewrite !Qle_bool_iff, Ha. reflexivity. }
  assert (E2 : Qfloor (Qabs q * inject_Z (10 ^ Z.of_nat f) + (1 # 2))
               = Qfloor (Qabs 0 * inject_Z (10 ^ Z.of_nat f) + (1 # 2))).
  { apply Qfloor_comp. rewrite Ha. reflexivity. }
  rewrite E1, E2. reflexivity.
Qed.

Lemma cell_of_null (sd : Q -> string) (c : JSValue) (f : nat) :
  c = JNull ->
  displayed sd (t ← opt_toFixed sd c f; Normal (js_or t (JStr "N/A"))) = Normal "N/A".
Proof. intros ->. reflexivity. Qed.

Lemma cell_of_zero (sd : Q -> string) (q : Q) (f : nat) :
  (q == 0)%Q ->
  displayed sd (t ← opt_toFixed sd (JNum (Fin q)) f; Normal (js_or t (JStr "N/A")))
  = displayed sd (t ← opt_toFixed sd (JNum (Fin 0)) f; Normal (js_or t (JStr "N/A"))).
Proof.
  intros Hq.
  change (opt_toFixed sd (JNum (Fin q)) f) with (Normal (JStr (toFixed sd (Fin q) f))).
  rewrite (toFixed_zero sd q f Hq). reflexivity.
Qed.

(** C2: on a record of the section 6 shape, a null cadence, pitch_mean or
    pitch_std is displayed as N/A, the number 0 in these fields is displayed
    as a number (0.0, 0 and 0.0: toFixed returns a non-empty string, which is
    truthy), and a cough_count or sneeze_count of 0 is displayed as 0. *)
Theorem null_and_zero_are_displayed_apart (sd : Q -> string) (r : AnalysisResult) :
  (cadence r = None -> displayed sd (cadence_cell sd (JObj (to_json r))) = Normal "N/A")
  /\ (forall q, cadence r = Some q -> (q == 0)%Q ->
        displayed sd (cadence_cell sd (JObj (to_json r))) = Normal "0.0")
  /\ (pitch_mean r = None ->
        displayed sd (pitch_mean_cell sd (JObj (to_json r))) = Normal "N/A")
  /\ (forall q, pitch_mean r = Some q -> (q == 0)%Q ->
        displayed sd (pitch_mean_cell sd (JObj (to_json r))) = Normal "0")
  /\ (pitch_std r = None ->
        displayed sd (pitch_std_cell sd (JObj (to_json r))) = Normal "N/A")
  /\ (forall q, pitch_std r = Some q -> (q == 0)%Q ->
        displayed sd (pitch_std_cell sd (JObj (to_json r))) = Normal "0.0")
  /\ (cough_count r = 0%Z ->
        cough_count_cell (JObj (to_json r)) = Normal (JNumZ 0)
        /\ displayed sd (cough_count_cell (JObj (to_json r))) = Normal "0")
  /\ (sneeze_count r = 0%Z ->
        sneeze_count_cell (JObj (to_json r)) = Normal (JNumZ 0)
        /\ displayed sd (sneeze_count_cell (JObj (to_json r))) = Normal "0").
Proof.
  assert (Hc : cadence_cell sd (JObj (to_json r))
               = (t ← opt_toFixed sd (json_number_or_null (cadence r)) 1;
                  Normal (js_or t (JStr "N/A")))) by reflexivity.
  assert (Hm : pitch_mean_cell sd (JObj (to_json r))
               = (t ← opt_toFixed sd (json_number_or_null (pitch_mean r)) 0;
                  Normal (js_or t (JStr "N/A")))) by reflexivity.
  assert (Hs : pitch_std_cell sd (JObj (to_json r))
               = (t ← opt_toFixed sd (json_number_or_null (pitch_std r)) 1;
                  Normal (js_or t (JStr "N/A")))) by reflexivity.
  assert (Hcc : cough_count_cell (JObj (to_json r))
                = Normal (js_or (JNumZ (cough_count r)) (JNumZ 0))) by reflexivity.
  assert (Hsc : sneeze_count_cell (JObj (to_json r))
                = Normal (js_or (JNumZ (sneeze_count r)) (JNumZ 0))) by reflexivity.
  rewrite Hc, Hm, Hs, Hcc, Hsc.
  repeat apply conj.
  - intros ->. reflexivity.
  - intros q -> Hq. simpl json_number_or_null. rewrite (cell_of_zero sd q 1 Hq). reflexivity.
  - intros ->. reflexivity.
  - intros q -> Hq. simpl json_number_or_null. rewrite (cell_of_zero sd q 0 Hq). reflexivity.
  - intros ->. reflexivity.
  - intros q -> Hq. simpl json_number_or_null. rewrite (cell_of_zero sd q 1 Hq). reflexivity.
  - intros ->. split; reflexivity.
  - intros ->. split; reflexivity.
Qed.

(** C2 on the record of a silent clip and on a record of zeros. *)
Lemma null_and_zero_are_displayed_apart_witness :
  displayed (fun _ => "") (cadence_cell (fun _ => "")
    (JObj (to_json {| cadence := None; pitch_mean := Some 0%Q; pitch_std := Some (0 # 7)%Q;
                      cough_count := 0%Z; sneeze_count := 0%Z; tone_quality := "Normal";
                      speech_rate := "unavailable"; health_insights := "" |})))
    = Normal "N/A"
  /\ displayed (fun _ => "") (pitch_mean_cell (fun _ => "")
    (JObj (to_json {| cadence := None; pitch_mean := Some 0%Q; pitch_std := Some (0 # 7)%Q;
                      cough_count := 0%Z; sneeze_count := 0%Z; tone_quality := "Normal";
                      speech_rate := "unavailable"; health_insights := "" |})))
    = Normal "0"
  /\ displayed (fun _ => "") (pitch_std_cell (fun _ => "")
    (JObj (to_json {| cadence := None; pitch_mean := Some 0%Q; pitch_std := Some (0 # 7)%Q;
                      cough_count := 0%Z; sneeze_count := 0%Z; tone_quality := "Normal";
                      speech_rate := "unavailable"; health_insights := "" |})))
    = Normal "0.0".
Proof.
  pose proof (null_and_zero_are_displayed_apart (fun _ => "")
    {| cadence := None; pitch_mean := Some 0%Q; pitch_std := Some (0 # 7)%Q;
       cough_count := 0%Z; sneeze_count := 0%Z; tone_quality := "Normal";
       speech_rate := "unavailable"; health_insights := "" |})
    as (Hc & _ & _ & Hm & _ & Hs & _).
  split; [apply Hc; reflexivity |].
  split; [apply (Hm 0%Q); reflexivity |].
  apply (Hs (0 # 7)%Q); reflexivity.
Defined.

(** ** The handlers *)

(** No handler but [analyzeAudio] writes [analysis] or [loading]. *)
Lemma handle_keeps_analysis (st : State) (e : UIEvent) :
  analysis (handle st e) = analysis st /\ loading (handle st e) = loading st.
Proof.
  destruct e as [[stream | message | stream message] | data | | | [| file files]]; simpl;
    try (split; reflexivity).
  - unfold stopRecording. destruct (mediaRecorderRef st); [destruct (isRecording st) |];
      split; reflexivity.
  - destruct (startsWith (blob_type file) "audio/"); split; reflexivity.
Qed.

Lemma run_events_keeps_analysis (events : list UIEvent) (st : State) :
  analysis (run_events events st) = analysis st
  /\ loading (run_events events st) = loading st.
Proof.
  unfold run_events. revert st.
  induction events as [| e events IH]; intros st; simpl; [split; reflexivity |].
  destruct (IH (handle st e)) as [Ha Hl].
  destruct (handle_keeps_analysis st e) as [Ha' Hl'].
  split; congruence.
Qed.

Lemma analyzeAudio_unfold (events : list UIEvent) (o : FetchOutcome) (st : State) (blob : Blob) :
  audioBlob st = Some blob ->
  analyzeAudio events o st
  = analyzeAudio_settle o (run_events events (setError None (setLoading true st))).
Proof. intros H. unfold analyzeAudio, analyzeAudio_begin. rewrite H. reflexivity. Qed.

(** The clip in [audioBlob] is the recording the recorder handed over, or
    the file picked. *)
Lemma clip_is_captured_or_uploaded (st : State) (file : Blob) (files : list Blob) :
  audioBlob (onstop st) = Some (new_Blob (audioChunksRef st) "audio/wav")
  /\ (startsWith (blob_type file) "audio/" = true ->
      audioBlob (handleFileUpload (file :: files) st) = Some file).
Proof.
  split; [reflexivity |].
  intros H. simpl. rewrite H. reflexivity.
Qed.

(** ** From the element tree to the page *)

(** React takes a value as a child exactly when it is [renderable]. *)
Lemma child_text_renderable (sd : Q -> string) (v : JSValue) :
  (renderable v = true -> exists t, child_text sd v = Normal t)
  /\ (renderable v = false -> child_text sd v = Throw InvalidChild).
Proof.
  revert v. fix IH 1. intros [| | b | n | s | xs | o];
    try (split; [intros _; eexists; reflexivity | discriminate]).
  - simpl. induction xs as [| x xs IHxs].
    + split; [intros _; eexists; reflexivity | discriminate].
    + destruct (IH x) as [Yx Nx]. destruct IHxs as [Yxs Nxs].
      destruct (renderable x).
      * destruct (Yx eq_refl) as [t ->]. simpl. split.
        -- intros H. destruct (Yxs H) as [t' ->]. eexists. reflexivity.
        -- intros H. rewrite (Nxs H). reflexivity.
      * rewrite (Nx eq_refl). simpl. split; [discriminate | reflexivity].
  - split; [discriminate | reflexivity].
Qed.

(** The insights block on the page: the text of the value, under the
    heading when the value is truthy. *)
Lemma insights_texts (sd : Q -> string) (h : JSValue) :
  node_texts sd
    (if ToBoolean h then
       NElem "div" "bg-indigo-50 rounded-lg p-4"
         [NElem "h3" "font-medium text-indigo-900 mb-3" [NText "Health Insights"];
          NElem "p" "text-sm text-indigo-800" [NExpr h]]
     else NExpr h)
  = (t ← child_text sd h;
     Normal (if ToBoolean h then ["Health Insights"; t] else [t])).
Proof.
  destruct (ToBoolean h); cbn [node_texts mbind Completion_bind];
    destruct (child_text sd h); reflexivity.
Qed.

(** The card on the page: the fixed labels with the texts of the eight cells
    between them, in the order of lines 189-254. *)
Lemma mounted_card (sd : Q -> string) (a cad pm cc sc ps tq sr : JSValue) (hi : Node) :
  cadence_cell sd a = Normal cad ->
  pitch_mean_cell sd a = Normal pm ->
  cough_count_cell a = Normal cc ->
  sneeze_count_cell a = Normal sc ->
  pitch_std_cell sd a = Normal ps ->
  tone_quality_cell a = Normal tq ->
  speech_rate_cell a = Normal sr ->
  health_insights_block a = Normal hi ->
  mounted sd (analysis_card sd a)
  = (t1 ← child_text sd cad; t2 ← child_text sd pm;
     t3 ← child_text sd cc; t4 ← child_text sd sc;
     t5 ← child_text sd ps; t6 ← child_text sd tq; t7 ← child_text sd sr;
     t8 ← node_texts sd hi;
     Normal (["Cadence"; t1; " "; "WPM"; "Pitch"; t2; " "; "Hz";
              "Respiratory Events"; "Coughs detected:"; t3; "Sneezes detected:"; t4;
              "Voice Characteristics"; "Pitch Variation:"; t5; " Hz";
              "Tone Quality:"; t6; "Speech Rate:"; t7] ++ t8)%list).
Proof.
  intros H1 H2 H3 H4 H5 H6 H7 H8.
  unfold mounted, analysis_card. rewrite H1, H2, H3, H4, H5, H6, H7, H8.
  cbn [mbind Completion_bind node_texts].
  destruct (child_text sd cad); [| reflexivity].
  destruct (child_text sd pm); [| reflexivity].
  destruct (child_text sd cc); [| reflexivity].
  destruct (child_text sd sc); [| reflexivity].
  destruct (child_text sd ps); [| reflexivity].
  destruct (child_text sd tq); [| reflexivity].
  destruct (child_text sd sr); [| reflexivity].
  destruct (node_texts sd hi); [| reflexivity].
  cbn [mbind Completion_bind app]. rewrite app_nil_r. reflexivity.
Qed.

(** [toFixed] and ToString never return the empty string. *)
Lemma pretty_N_go_length (x : N) (s : string) :
  (String.length s <= String.length (pretty_N_go x s))%nat.
Proof.
  revert s. induction (N.lt_wf_0 x) as [x _ IH]; intros s.
  destruct (decide (x = 0)%N) as [-> | Hx]; [rewrite pretty_N_go_0; lia |].
  rewrite pretty_N_go_step by lia.
  etransitivity; [| apply IH; apply N.div_lt; lia]. simpl. lia.
Qed.

Lemma pretty_N_not_empty (n : N) : pretty n <> "".
Proof.
  unfold pretty, pretty_N. destruct (decide (n = 0)%N) as [_ | Hn]; [discriminate |].
  rewrite pretty_N_go_step by lia.
  intros E.
  pose proof (pretty_N_go_length (n `div` 10)
                (String (pretty_N_char (n `mod` 10)) "")) as H.
  rewrite E in H. simpl in H. lia.
Qed.

Lemma append_not_empty (a b : string) : b <> "" -> a ++ b <> "".
Proof. intros Hb. destruct a; [exact Hb | discriminate]. Qed.

Lemma Number_toString_not_empty (sd : Q -> string) (n : number) :
  (forall q, sd q <> "") -> Number_toString sd n <> "".
Proof.
  intros Hsd. destruct n as [| | | q]; simpl; try discriminate.
  destruct (is_safe_integer q); [| apply Hsd].
  apply append_not_empty, pretty_N_not_empty.
Qed.

Lemma toFixed_not_empty (sd : Q -> string) (n : number) (f : nat) :
  (forall q, sd q <> "") -> toFixed sd n f <> "".
Proof.
  intros Hsd. destruct n as [| | | q]; try discriminate.
  unfold toFixed.
  destruct (Qle_bool (inject_Z (10 ^ 21)) (Qabs q)).
  - apply append_not_empty, Number_toString_not_empty, Hsd.
  - apply append_not_empty. destruct f as [| f].
    + apply pretty_N_not_empty.
    + apply append_not_empty. discriminate.
Qed.

Lemma truthy_string (s : string) : s <> "" -> ToBoolean (JStr s) = true.
Proof. intros H. destruct s; [destruct (H eq_refl) | reflexivity]. Qed.

(** The cells of a record of the section 6 shape. *)
Lemma shown_count_cell (sd : Q -> string) (z : Z) :
  child_text sd (js_or (JNumZ z) (JNumZ 0)) = Normal (shown_count sd z).
Proof.
  unfold js_or, shown_count. destruct (ToBoolean (JNumZ z)) eqn:Ht; [reflexivity |].
  simpl in Ht. apply negb_false_iff, Qeq_bool_iff in Ht.
  unfold Qeq in Ht. simpl in Ht. assert (z = 0%Z) as -> by lia. reflexivity.
Qed.

Lemma shown_label_cell (sd : Q -> string) (s fallback : string) :
  child_text sd (js_or (JStr s) (JStr fallback)) = Normal (shown_label s fallback).
Proof. unfold js_or, shown_label. simpl. destruct (String.eqb s ""); reflexivity. Qed.

Lemma shown_number_cell (sd : Q -> string) (x : option Q) (f : nat) :
  (forall q, sd q <> "") ->
  exists t, opt_toFixed sd (json_number_or_null x) f = Normal t
            /\ child_text sd (js_or t (JStr "N/A")) = Normal (shown_number sd x f).
Proof.
  intros Hsd. destruct x as [q |].
  - exists (JStr (toFixed sd (Fin q) f)). split; [reflexivity |].
    unfold js_or. rewrite (truthy_string _ (toFixed_not_empty sd (Fin q) f Hsd)). reflexivity.
  - exists JUndefined. split; reflexivity.
Qed.

(** A record of the section 6 shape is on the page field by field. *)
Lemma record_mounted (sd : Q -> string) (r : AnalysisResult) :
  (forall q, sd q <> "") ->
  mounted sd (results_panel sd (JObj (to_json r))) = Normal (card_texts sd r).
Proof.
  intros Hsd. rewrite results_panel_object.
  destruct (shown_number_cell sd (cadence r) 1 Hsd) as (t1 & E1 & T1).
  destruct (shown_number_cell sd (pitch_mean r) 0 Hsd) as (t2 & E2 & T2).
  destruct (shown_number_cell sd (pitch_std r) 1 Hsd) as (t3 & E3 & T3).
  rewrite (mounted_card sd (JObj (to_json r))
             (js_or t1 (JStr "N/A")) (js_or t2 (JStr "N/A"))
             (js_or (JNumZ (cough_count r)) (JNumZ 0))
             (js_or (JNumZ (sneeze_count r)) (JNumZ 0))
             (js_or t3 (JStr "N/A"))
             (js_or (JStr (tone_quality r)) (JStr "Normal"))
             (js_or (JStr (speech_rate r)) (JStr "N/A"))
             (if ToBoolean (JStr (health_insights r)) then
                NElem "div" "bg-indigo-50 rounded-lg p-4"
                  [NElem "h3" "font-medium text-indigo-900 mb-3" [NText "Health Insights"];
                   NElem "p" "text-sm text-indigo-800" [NExpr (JStr (health_insights r))]]
              else NExpr (JStr (health_insights r)))).
  - rewrite T1, T2, T3, !shown_count_cell, !shown_label_cell, insights_texts.
    cbn [mbind Completion_bind child_text ToBoolean]. unfold card_texts.
    destruct (String.eqb_spec (health_insights r) "") as [-> | _]; reflexivity.
  - change (cadence_cell sd (JObj (to_json r)))
      with (t ← opt_toFixed sd (json_number_or_null (cadence r)) 1;
            Normal (js_or t (JStr "N/A"))).
    rewrite E1. reflexivity.
  - change (pitch_mean_cell sd (JObj (to_json r)))
      with (t ← opt_toFixed sd (json_number_or_null (pitch_mean r)) 0;
            Normal (js_or t (JStr "N/A"))).
    rewrite E2. reflexivity.
  - reflexivity.
  - reflexivity.
  - change (pitch_std_cell sd (JObj (to_json r)))
      with (t ← opt_toFixed sd (json_number_or_null (pitch_std r)) 1;
            Normal (js_or t (JStr "N/A"))).
    rewrite E3. reflexivity.
  - reflexivity.
  - reflexivity.
  - reflexivity.
Qed.

(** C5: with a clip in [audioBlob], [analyzeAudio] issues one POST to
    /api/analyze-voice whose body is a FormData with the clip under the
    field name audio; when the response is ok and its body parses, the
    parsed body is stored in [analysis], whatever was handled while the
    request was in flight, and the results section is rendered from it: for
    a record of the section 6 shape the page then carries, between the
    card's labels, cadence with one decimal, pitch_mean with none, the two
    counts, pitch_std with one decimal, the two labels and the insights
    under their heading (N/A for a null number, the fallback for an empty
    label). *)
Theorem analyzeAudio_posts_clip_and_renders_result
    (sd : Q -> string) (st : State) (blob : Blob) (events : list UIEvent)
    (r : Response) (result : JSValue) :
  audioBlob st = Some blob ->
  response_ok r = true ->
  json r = inl result ->
  (exists st1,
     analyzeAudio_begin st
     = Some (st1, {| req_url := "/api/analyze-voice";
                     req_method := "POST";
                     req_body := [{| fd_name := "audio"; fd_value := blob;
                                     fd_filename := "recording.wav" |}] |}))
  /\ analysis (analyzeAudio events (Resolved r) st) = result
  /\ loading (analyzeAudio events (Resolved r) st) = false
  /\ results_section sd (analyzeAudio events (Resolved r) st) = results_panel sd result
  /\ (forall rec : AnalysisResult,
      (forall q, sd q <> "") ->
      result = JObj (to_json rec) ->
      mounted sd (results_section sd (analyzeAudio events (Resolved r) st))
      = Normal (card_texts sd rec)).
Proof.
  intros Hblob Hok Hjson.
  assert (Ha : analysis (analyzeAudio events (Resolved r) st) = result).
  { rewrite (analyzeAudio_unfold _ _ _ _ Hblob). unfold analyzeAudio_settle.
    rewrite Hok, Hjson. reflexivity. }
  split.
  { unfold analyzeAudio_begin. rewrite Hblob. eexists. reflexivity. }
  split; [exact Ha |].
  split.
  { rewrite (analyzeAudio_unfold _ _ _ _ Hblob). reflexivity. }
  unfold results_section. rewrite Ha.
  split; [reflexivity |].
  intros rec Hsd ->. apply record_mounted. exact Hsd.
Qed.

(** C5 on an uploaded WAV file and a response carrying a record. *)
Lemma analyzeAudio_posts_clip_and_renders_result_witness :
  mounted (fun _ => "1e+21")
    (results_section (fun _ => "1e+21")
       (analyzeAudio []
          (Resolved {| status := 200; json := inl (JObj (to_json sample_record)) |})
          (handleFileUpload
             [{| blob_name := Some "voice.wav"; blob_type := "audio/wav"; blob_data := [] |}]
             initial_state)))
  = Normal ["Cadence"; "120.0"; " "; "WPM"; "Pitch"; "185"; " "; "Hz";
            "Respiratory Events"; "Coughs detected:"; "2"; "Sneezes detected:"; "0";
            "Voice Characteristics"; "Pitch Variation:"; "N/A"; " Hz";
            "Tone Quality:"; "Breathy"; "Speech Rate:"; "N/A";
            "Health Insights"; "Two coughs detected."].
Proof.
  destruct (analyzeAudio_posts_clip_and_renders_result (fun _ => "1e+21")
              (handleFileUpload
                 [{| blob_name := Some "voice.wav"; blob_type := "audio/wav";
                     blob_data := [] |}]
                 initial_state)
              {| blob_name := Some "voice.wav"; blob_type := "audio/wav"; blob_data := [] |}
              [] {| status := 200; json := inl (JObj (to_json sample_record)) |}
              (JObj (to_json sample_record)) eq_refl eq_refl eq_refl)
    as (_ & _ & _ & _ & H).
  rewrite (H sample_record); [reflexivity | discriminate | reflexivity].
Defined.

(** ** A request that fails, and a file that is picked *)

(** C9: with a clip in [audioBlob], when [fetch] rejects or the status is
    not ok, [error] ends as a message and [analysis] is what it was before
    the call; and however the request ends, [loading] is false when
    [analyzeAudio] completes. *)
Theorem analyzeAudio_failure_keeps_analysis
    (st : State) (blob : Blob) (events : list UIEvent) (o : FetchOutcome) :
  audioBlob st = Some blob ->
  (failed o ->
     (exists message,
        error (analyzeAudio events o st) = Some ("Error analyzing audio: " ++ message))
     /\ analysis (analyzeAudio events o st) = analysis st)
  /\ loading (analyzeAudio events o st) = false.
Proof.
  intros Hblob. rewrite (analyzeAudio_unfold _ _ _ _ Hblob).
  split; [| reflexivity].
  intros Hfail.
  pose proof (run_events_keeps_analysis events (setError None (setLoading true st))) as [Ha _].
  destruct o as [message | r]; simpl in Hfail.
  - split; [exists message; reflexivity | exact Ha].
  - unfold analyzeAudio_settle. rewrite Hfail.
    split; [exists "Analysis failed"; reflexivity | exact Ha].
Qed.

(** C9 on a 500 response arriving after a first analysis was stored. *)
Lemma analyzeAudio_failure_keeps_analysis_witness :
  (exists message,
     error (analyzeAudio [EStopRecording]
              (Resolved {| status := 500; json := inr "Unexpected token" |})
              (setAnalysis (JObj ∅) (onstop initial_state)))
     = Some ("Error analyzing audio: " ++ message))
  /\ analysis (analyzeAudio [EStopRecording]
                 (Resolved {| status := 500; json := inr "Unexpected token" |})
                 (setAnalysis (JObj ∅) (onstop initial_state)))
     = JObj ∅
  /\ loading (analyzeAudio [EStopRecording]
                (Resolved {| status := 500; json := inr "Unexpected token" |})
                (setAnalysis (JObj ∅) (onstop initial_state)))
     = false.
Proof.
  destruct (analyzeAudio_failure_keeps_analysis
              (setAnalysis (JObj ∅) (onstop initial_state))
              (new_Blob [] "audio/wav") [EStopRecording]
              (Resolved {| status := 500; json := inr "Unexpected token" |})
              eq_refl)
    as [Hfail Hloading].
  destruct (Hfail eq_refl) as [Herror Hanalysis].
  split; [exact Herror |]. split; [exact Hanalysis | exact Hloading].
Defined.

(** C10: a selected file is accepted exactly when its MIME type starts with
    audio/, whatever follows the slash: then [audioBlob] is the file and
    [error] is cleared; otherwise (also with no file selected) [error] is
    the message Please select a valid audio file and [audioBlob] is left as
    it was. *)
Theorem handleFileUpload_accepts_audio_types (st : State) (file : Blob) (files : list Blob) :
  ((audioBlob (handleFileUpload (file :: files) st) = Some file
    /\ error (handleFileUpload (file :: files) st) = None)
   <-> startsWith (blob_type file) "audio/" = true)
  /\ (forall subtype, blob_type file = "audio/" ++ subtype ->
      handleFileUpload (file :: files) st = setError None (setAudioBlob (Some file) st))
  /\ (startsWith (blob_type file) "audio/" = false ->
      error (handleFileUpload (file :: files) st) = Some "Please select a valid audio file"
      /\ audioBlob (handleFileUpload (file :: files) st) = audioBlob st)
  /\ error (handleFileUpload [] st) = Some "Please select a valid audio file"
  /\ audioBlob (handleFileUpload [] st) = audioBlob st.
Proof.
  repeat apply conj; try reflexivity.
  - intros [_ He]. simpl in He.
    destruct (startsWith (blob_type file) "audio/"); [reflexivity | discriminate He].
  - intros H. simpl. rewrite H. split; reflexivity.
  - intros subtype H. simpl. rewrite H.
    assert (Hp : startsWith ("audio/" ++ subtype) "audio/" = true)
      by (destruct subtype; reflexivity).
    rewrite Hp. reflexivity.
  - intros H. simpl. rewrite H. split; reflexivity.
Qed.

(** C10 on an Ogg file, a type the page's hint does not list. *)
Lemma handleFileUpload_accepts_audio_types_witness :
  handleFileUpload
    [{| blob_name := Some "note.ogg"; blob_type := "audio/ogg"; blob_data := [] |}]
    initial_state
  = setError None
      (setAudioBlob
         (Some {| blob_name := Some "note.ogg"; blob_type := "audio/ogg"; blob_data := [] |})
         initial_state).
Proof.
  destruct (handleFileUpload_accepts_audio_types initial_state
              {| blob_name := Some "note.ogg"; blob_type := "audio/ogg"; blob_data := [] |} [])
    as (_ & Hany & _).
  apply (Hany "ogg"). reflexivity.
Defined.

Import Engine.

(** * Properties of the engine *)

Section EngineFacts.

Variable K : Kernels.
Variable cfg : Config.

#[local] Open Scope Q_scope.
#[local] Open Scope list_scope.











(** ** Schedules *)

Lemma fan_out_pitch (fs : list FrameFeatures) (order : list Branch) (j : Join) :
  In PitchBranch order \/ pitch_slot j = Some (pitch_branch K fs) ->
  pitch_slot (fold_left (run_branch K cfg fs) order j) = Some (pitch_branch K fs).
Proof.
  revert j. induction order as [| b order IH]; intros j H; simpl.
  - destruct H as [[] | H]; exact H.
  - apply IH. destruct H as [[-> | H] | H]; [right; reflexivity | left; exact H |].
    right. destruct b; simpl; [reflexivity | exact H | exact H].
Qed.

Lemma fan_out_cadence (fs : list FrameFeatures) (order : list Branch) (j : Join) :
  In CadenceBranch order \/ cadence_slot j = Some (cadence_of K cfg fs) ->
  cadence_slot (fold_left (run_branch K cfg fs) order j) = Some (cadence_of K cfg fs).
Proof.
  revert j. induction order as [| b order IH]; intros j H; simpl.
  - destruct H as [[] | H]; exact H.
  - apply IH. destruct H as [[-> | H] | H]; [right; reflexivity | left; exact H |].
    right. destruct b; simpl; [exact H | reflexivity | exact H].
Qed.

Lemma fan_out_events (fs : list FrameFeatures) (order : list Branch) (j : Join) :
  In EventBranch order \/ event_slot j = Some (detect_events cfg fs) ->
  event_slot (fold_left (run_branch K cfg fs) order j) = Some (detect_events cfg fs).
Proof.
  revert j. induction order as [| b order IH]; intros j H; simpl.
  - destruct H as [[] | H]; exact H.
  - apply IH. destruct H as [[-> | H] | H]; [right; reflexivity | left; exact H |].
    right. destruct b; simpl; [exact H | exact H | reflexivity].
Qed.

(** Under a complete schedule the join holds the three branch results,
    whatever the order and however often a branch ran. *)
Lemma fan_in_complete (fs : list FrameFeatures) (order : list Branch) :
  complete order ->
  fan_in cfg (fan_out K cfg order fs)
  = inr (assemble cfg (pitch_branch K fs) (cadence_of K cfg fs) (detect_events cfg fs)).
Proof.
  intros H. unfold fan_in, fan_out.
  rewrite fan_out_pitch by (left; apply H).
  rewrite fan_out_cadence by (left; apply H).
  rewrite fan_out_events by (left; apply H).
  reflexivity.
Qed.

Lemma serial_is_complete : complete [PitchBranch; CadenceBranch; EventBranch].
Proof. intros []; simpl; auto. Qed.

Lemma analyze_scheduled_complete (order : list Branch) (w : Waveform) :
  complete order ->
  analyze_scheduled K cfg order w
  = match frames_analysed K cfg w with
    | None =>
        match preprocess K cfg w with
        | Failed e => inl e
        | _ => inl InternalComputationError
        end
    | Some fs =>
        inr (assemble cfg (pitch_branch K fs) (cadence_of K cfg fs) (detect_events cfg fs))
    end.
Proof.
  intros H. unfold analyze_scheduled, frames_analysed.
  destruct (preprocess K cfg w); [reflexivity | |]; apply fan_in_complete, H.
Qed.


(** ** Clips without voiced frames *)

Lemma frame_features_unvoiced (sr : Z) (frames : list Frame) :
  Forall (fun f => isVoiced f = false -> f0 f = None) (frame_features K cfg sr frames).
Proof.
  unfold frame_features.
  generalize (noise_floor K (map (fun f => rms K (window f)) frames)) as fl.
  intros fl. induction frames as [| f frames IH]; simpl; constructor; [| exact IH].
  simpl. intros ->. reflexivity.
Qed.

Lemma frames_analysed_unvoiced (w : Waveform) (fs : list FrameFeatures) :
  frames_analysed K cfg w = Some fs ->
  Forall (fun f => isVoiced f = false -> f0 f = None) fs.
Proof.
  unfold frames_analysed, preprocess.
  destruct (sample_rate w <? min_sample_rate cfg)%Z; [discriminate |].
  destruct (_ || _); intros [= <-]; [constructor | apply frame_features_unvoiced].
Qed.

Lemma voiced_f0_none (fs : list FrameFeatures) :
  Forall (fun f => isVoiced f = false -> f0 f = None) fs ->
  Forall (fun f => isVoiced f = false) fs ->
  voiced_f0 fs = [].
Proof.
  unfold voiced_f0.
  induction 1 as [| f fs Hf _ IH]; intros Hv; [reflexivity |].
  inversion Hv as [| ? ? Hu Hv']; subst. simpl.
  rewrite (Hf Hu). apply IH, Hv'.
Qed.

(** C6: when no frame of the input is classified as voiced, the engine
    returns a record whose pitch_mean and pitch_std are unavailable: the
    JSON the assembler hands over holds null for both, no number, and the
    page shows N/A for them. *)
Theorem no_voiced_frame_pitch_unavailable
    (sd : Q -> string) (w : Waveform) (fs : list FrameFeatures) :
  frames_analysed K cfg w = Some fs ->
  Forall (fun f => isVoiced f = false) fs ->
  exists r,
    analyze K cfg w = inr r
    /\ pitch_mean r = None
    /\ pitch_std r = None
    /\ to_json r !! "pitch_mean"%string = Some JNull
    /\ to_json r !! "pitch_std"%string = Some JNull
    /\ displayed sd (pitch_mean_cell sd (JObj (to_json r))) = Normal "N/A"%string
    /\ displayed sd (pitch_std_cell sd (JObj (to_json r))) = Normal "N/A"%string.
Proof.
  intros Hfs Hv. unfold analyze.
  rewrite analyze_scheduled_complete by apply serial_is_complete.
  rewrite Hfs. eexists. split; [reflexivity |].
  assert (Hp : pitch_branch K fs = {| ps_mean := None; ps_std := None; ps_series := [] |}).
  { unfold pitch_branch.
    rewrite (voiced_f0_none fs (frames_analysed_unvoiced w fs Hfs) Hv). reflexivity. }
  rewrite Hp. repeat apply conj; reflexivity.
Qed.


(** ** The clip played twice *)











Lemma Qsum_app (a b : list Q) : Qsum (a ++ b) == Qsum a + Qsum b.
Proof.
  induction a as [| x a IH]; simpl; [ring |]. rewrite IH. ring.
Qed.

Lemma Qlen_pos (x : Q) (l : list Q) : 0 < Qlen (x :: l).
Proof. unfold Qlen, Qlt. simpl. lia. Qed.

Lemma Qlen_twice (l : list Q) : Qlen (l ++ l) == 2 * Qlen l.
Proof.
  unfold Qlen. rewrite List.length_app, Nat2Z.inj_add, inject_Z_plus. ring.
Qed.

Lemma mean_twice (l : list Q) : mean (l ++ l) == mean l.
Proof.
  destruct l as [| x l]; [reflexivity |].
  change (mean ((x :: l) ++ x :: l)) with (Qsum ((x :: l) ++ x :: l) / Qlen ((x :: l) ++ x :: l)).
  change (mean (x :: l)) with (Qsum (x :: l) / Qlen (x :: l)).
  rewrite Qsum_app, Qlen_twice.
  pose proof (Qlen_pos x l) as Hpos.
  field. intros H0. rewrite H0 in Hpos. exact (Qlt_irrefl 0 Hpos).
Qed.









(** *** Why the property of section 8 does not hold as worded *)





Lemma sq_dev_compat (m m' : Q) (l : list Q) :
  m == m' ->
  Qsum (map (fun x => (x - m) * (x - m)) l) == Qsum (map (fun x => (x - m') * (x - m')) l).
Proof.
  intros Hm. induction l as [| x l IH]; simpl; [reflexivity |].
  rewrite IH, Hm. reflexivity.
Qed.

Lemma sum_sq_dev_twice (l : list Q) : sum_sq_dev (l ++ l) == 2 * sum_sq_dev l.
Proof.
  unfold sum_sq_dev.
  rewrite (sq_dev_compat _ _ (l ++ l) (mean_twice l)).
  rewrite map_app, Qsum_app. ring.
Qed.

(** Whatever the kernels: with [n] voiced frames, two or more, doubling
    multiplies the squared sample deviation by 2(n-1)/(2n-1). *)
Lemma sample_variance_twice (l : list Q) :
  (2 <= length l)%nat ->
  sample_variance (l ++ l) == sample_variance l * (2 * (Qlen l - 1) / (2 * Qlen l - 1)).
Proof.
  intros Hn. unfold sample_variance.
  rewrite sum_sq_dev_twice, Qlen_twice.
  assert (Hlen : 2 <= Qlen l).
  { unfold Qlen. change 2 with (inject_Z 2). rewrite <- Zle_Qle. lia. }
  field. split; intros E; lra.
Qed.

End EngineFacts.

(** ** The engine on concrete clips *)



(** C6 on two bursts of equal energy: frames, events, no voiced frame. *)
Lemma no_voiced_frame_pitch_unavailable_witness :
  exists r,
    analyze demo_kernels demo_config level_clip = inr r
    /\ cough_count r = 1%Z
    /\ pitch_mean r = None
    /\ pitch_std r = None
    /\ to_json r !! "pitch_mean" = Some JNull
    /\ to_json r !! "pitch_std" = Some JNull.
Proof.
  destruct (no_voiced_frame_pitch_unavailable demo_kernels demo_config (fun _ => "")
              level_clip
              (default [] (frames_analysed demo_kernels demo_config level_clip)))
    as (r & Hr & Hm & Hs & Hjm & Hjs & _).
  - vm_compute. reflexivity.
  - vm_compute. repeat constructor.
  - exists r. repeat apply conj; try assumption.
    assert (E : analyze demo_kernels demo_config level_clip
                = inr {| cadence := None; pitch_mean := None; pitch_std := None;
                         cough_count := 1; sneeze_count := 0; tone_quality := "Normal";
                         speech_rate := "unavailable";
                         health_insights := "No notable findings." |})
      by (vm_compute; reflexivity).
    rewrite E in Hr. injection Hr as <-. reflexivity.
Defined.




(** * Further properties of the component *)

(** ** One recording, from start to clip *)

Lemma run_events_app (a b : list UIEvent) (st : State) :
  run_events (a ++ b)%list st = run_events b (run_events a st).
Proof. unfold run_events. apply fold_left_app. Qed.

Lemma data_events_append (chunks : list Blob) (st : State) :
  run_events (map EDataAvailable chunks) st
  = setAudioChunks (audioChunksRef st ++ chunks)%list st.
Proof.
  revert st. induction chunks as [| c chunks IH]; intros st.
  - simpl. rewrite app_nil_r. destruct st; reflexivity.
  - change (run_events (map EDataAvailable (c :: chunks)) st)
      with (run_events (map EDataAvailable chunks) (ondataavailable c st)).
    rewrite IH. unfold ondataavailable, setAudioChunks. simpl.
    rewrite <- app_assoc. reflexivity.
Qed.

(** X1: a recording that starts, receives chunks, is stopped and fires
    [onstop] leaves in [audioBlob] the chunks of this recording only, in
    the order they arrived, labelled audio/wav whatever the chunks' own
    types; chunks of an earlier recording are discarded at the start, the
    error is cleared, [isRecording] is false again and the result on screen
    is untouched. *)
Theorem recording_cycle_yields_wav_clip
    (st : State) (stream : nat) (chunks : list Blob) :
  audioBlob
    (run_events
       (EStartRecording (Granted stream) :: map EDataAvailable chunks
        ++ [EStopRecording; ERecorderStopped])%list st)
  = Some {| blob_name := None; blob_type := "audio/wav";
            blob_data := concat (map blob_data chunks) |}
  /\ isRecording
       (run_events
          (EStartRecording (Granted stream) :: map EDataAvailable chunks
           ++ [EStopRecording; ERecorderStopped])%list st)
     = false
  /\ error
       (run_events
          (EStartRecording (Granted stream) :: map EDataAvailable chunks
           ++ [EStopRecording; ERecorderStopped])%list st)
     = None
  /\ analysis
       (run_events
          (EStartRecording (Granted stream) :: map EDataAvailable chunks
           ++ [EStopRecording; ERecorderStopped])%list st)
     = analysis st.
Proof.
  change (run_events
            (EStartRecording (Granted stream) :: map EDataAvailable chunks
             ++ [EStopRecording; ERecorderStopped])%list st)
    with (run_events (map EDataAvailable chunks ++ [EStopRecording; ERecorderStopped])%list
            (startRecording (Granted stream) st)).
  rewrite run_events_app, data_events_append.
  repeat apply conj; reflexivity.
Qed.

(** ** What every reachable state satisfies *)

Lemma handle_keeps_recorder (st : State) (e : UIEvent) :
  (isRecording st = true -> is_Some (mediaRecorderRef st)) ->
  isRecording (handle st e) = true -> is_Some (mediaRecorderRef (handle st e)).
Proof.
  intros Inv.
  destruct e as [[stream | message | stream message] | data | | | [| file files]]; simpl;
    try exact Inv; try (intros _; eexists; reflexivity).
  - unfold stopRecording. destruct (mediaRecorderRef st) eqn:E.
    + destruct (isRecording st); [discriminate | intros _; eexists; exact E].
    + rewrite E. exact Inv.
  - destruct (startsWith (blob_type file) "audio/"); exact Inv.
Qed.

Lemma handle_keeps_audio_type (st : State) (e : UIEvent) :
  (forall blob, audioBlob st = Some blob -> startsWith (blob_type blob) "audio/" = true) ->
  forall blob, audioBlob (handle st e) = Some blob ->
               startsWith (blob_type blob) "audio/" = true.
Proof.
  intros Inv.
  destruct e as [[stream | message | stream message] | data | | | [| file files]]; simpl;
    try exact Inv.
  - unfold stopRecording. destruct (mediaRecorderRef st); [destruct (isRecording st) |];
      exact Inv.
  - intros blob [= <-]. reflexivity.
  - destruct (startsWith (blob_type file) "audio/") eqn:E; [| exact Inv].
    simpl. intros blob [= <-]. exact E.
Qed.

Lemma handle_error_not_empty (st : State) (e : UIEvent) :
  error st <> Some "" -> error (handle st e) <> Some "".
Proof.
  intros Inv.
  destruct e as [[stream | message | stream message] | data | | | [| file files]]; simpl;
    try exact Inv; try discriminate.
  - unfold stopRecording. destruct (mediaRecorderRef st); [destruct (isRecording st) |];
      exact Inv.
  - destruct (startsWith (blob_type file) "audio/"); simpl; discriminate.
Qed.

Lemma settle_error_not_empty (o : FetchOutcome) (st : State) :
  error st <> Some "" -> error (analyzeAudio_settle o st) <> Some "".
Proof.
  intros Inv. unfold analyzeAudio_settle.
  destruct o as [message | r]; simpl; [discriminate |].
  destruct (response_ok r); [destruct (json r) |]; simpl; try discriminate. exact Inv.
Qed.

Lemma settle_frame (o : FetchOutcome) (st : State) :
  isRecording (analyzeAudio_settle o st) = isRecording st
  /\ mediaRecorderRef (analyzeAudio_settle o st) = mediaRecorderRef st
  /\ audioBlob (analyzeAudio_settle o st) = audioBlob st
  /\ loading (analyzeAudio_settle o st) = false.
Proof.
  unfold analyzeAudio_settle.
  destruct o as [message | r]; [repeat apply conj; reflexivity |].
  destruct (response_ok r); [destruct (json r) |]; repeat apply conj; reflexivity.
Qed.

Lemma analyze_disabled_spec (st : State) :
  analyze_disabled st
  = match audioBlob st with
    | Some _ => loading st
    | None => true
    end.
Proof.
  unfold analyze_disabled. destruct (audioBlob st).
  - rewrite bool_decide_true by (eexists; reflexivity). reflexivity.
  - rewrite bool_decide_false by (intros [? H]; discriminate H). reflexivity.
Qed.

Lemma step_consistent (app : App) (a : Action) : consistent app -> consistent (step app a).
Proof.
  intros Happ. pose proof Happ as (Hlen & Hload & Hrec & Hblob & Hreq & Herr).
  destruct a as [e | | o]; simpl.
  - destruct (handle_keeps_analysis (ui app) e) as [_ Hl].
    repeat apply conj; simpl; try assumption.
    + rewrite Hl. apply Hload.
    + rewrite Hl. apply Hload.
    + apply handle_keeps_recorder, Hrec.
    + apply handle_keeps_audio_type, Hblob.
    + apply handle_error_not_empty, Herr.
  - unfold click_analyze, analyzeAudio_begin. rewrite analyze_disabled_spec.
    destruct (audioBlob (ui app)) as [blob |] eqn:Eb; [| exact Happ].
    destruct (loading (ui app)) eqn:El; [exact Happ |].
    assert (Hempty : in_flight app = []).
    { destruct (in_flight app) eqn:E; [reflexivity |].
      assert (false = true) by (apply Hload; discriminate). discriminate. }
    rewrite Hempty. simpl.
    repeat apply conj; simpl; try assumption; try discriminate; try reflexivity.
    + rewrite Eb. exact Hblob.
    + intros request [<- | []]. exists blob. split; [apply Hblob; reflexivity | reflexivity].
  - unfold fetch_settled. destruct (in_flight app) as [| request rest] eqn:E.
    { exact Happ. }
    destruct (settle_frame o (ui app)) as (Hr & Hm & Hb & Hl).
    simpl in Hlen. assert (rest = []) as -> by (destruct rest; [reflexivity | simpl in Hlen; lia]).
    repeat apply conj; cbn [ui in_flight length In].
    + lia.
    + rewrite Hl. discriminate.
    + intros H. destruct (H eq_refl).
    + rewrite Hr, Hm. exact Hrec.
    + rewrite Hb. exact Hblob.
    + intros request' [].
    + apply settle_error_not_empty, Herr.
Qed.

Lemma initial_consistent : consistent initial_app.
Proof.
  repeat apply conj; simpl; try discriminate; try lia.
  intros H. destruct (H eq_refl).
Qed.

Lemma run_consistent (actions : list Action) (app : App) :
  consistent app -> consistent (run actions app).
Proof.
  unfold run. revert app. induction actions as [| a actions IH]; intros app H; simpl.
  - exact H.
  - apply IH, step_consistent, H.
Qed.

(** X2: in every state the page can reach, a click on the record button
    while recording ends the recording: [isRecording] can only be true
    when the recorder ref is set, so the guard of [stopRecording] lets the
    stop through.  (The guard matters: on a state with [isRecording] true
    and no recorder, which the page never reaches, [stopRecording] does
    nothing.) *)
Theorem stop_click_ends_recording (actions : list Action) (access : MediaAccess) :
  isRecording (stopRecording (ui (run actions initial_app))) = false
  /\ (isRecording (ui (run actions initial_app)) = true ->
      isRecording (record_click access (ui (run actions initial_app))) = false)
  /\ isRecording (stopRecording (setIsRecording true initial_state)) = true.
Proof.
  destruct (run_consistent actions initial_app initial_consistent) as (_ & _ & Hrec & _).
  assert (Hstop : isRecording (stopRecording (ui (run actions initial_app))) = false).
  { unfold stopRecording.
    destruct (isRecording (ui (run actions initial_app))) eqn:E.
    - destruct (Hrec eq_refl) as [r Hr]. rewrite Hr. reflexivity.
    - destruct (mediaRecorderRef (ui (run actions initial_app))); exact E. }
  split; [exact Hstop |]. split; [| reflexivity].
  intros E. unfold record_click. rewrite E. exact Hstop.
Qed.

(** X3: however clicks, recorder events, uploads and settling requests
    interleave, at most one analysis request is in flight, [loading] is true
    exactly while one is, and the Analyze button is disabled for as long. *)
Theorem at_most_one_request_in_flight (actions : list Action) :
  (length (in_flight (run actions initial_app)) <= 1)%nat
  /\ (loading (ui (run actions initial_app)) = true
      <-> in_flight (run actions initial_app) <> [])
  /\ (in_flight (run actions initial_app) <> [] ->
      analyze_disabled (ui (run actions initial_app)) = true
      /\ click_analyze (run actions initial_app) = run actions initial_app).
Proof.
  destruct (run_consistent actions initial_app initial_consistent) as (Hlen & Hload & _).
  split; [exact Hlen |]. split; [exact Hload |].
  intros Hne. apply Hload in Hne.
  assert (Hd : analyze_disabled (ui (run actions initial_app)) = true).
  { rewrite analyze_disabled_spec, Hne.
    destruct (audioBlob (ui (run actions initial_app))); reflexivity. }
  split; [exact Hd |]. unfold click_analyze. rewrite Hd. reflexivity.
Qed.

(** X3 on a second click while the first request is still in flight. *)
Lemma at_most_one_request_in_flight_witness :
  click_analyze
    (run [AEvent ERecorderStopped; AClickAnalyze; AClickAnalyze] initial_app)
  = run [AEvent ERecorderStopped; AClickAnalyze; AClickAnalyze] initial_app.
Proof.
  destruct (at_most_one_request_in_flight
              [AEvent ERecorderStopped; AClickAnalyze; AClickAnalyze])
    as (_ & _ & H).
  apply H. discriminate.
Defined.

Lemma settle_analysis (o : FetchOutcome) (st : State) :
  analysis (analyzeAudio_settle o st) = analysis st
  \/ exists r,
       o = Resolved r /\ response_ok r = true
       /\ json r = inl (analysis (analyzeAudio_settle o st)).
Proof.
  unfold analyzeAudio_settle.
  destruct o as [message | r]; [left; reflexivity |].
  destruct (response_ok r) eqn:Hok; [| left; reflexivity].
  destruct (json r) as [result | message] eqn:Hj; [| left; reflexivity].
  right. exists r. repeat apply conj; [reflexivity | exact Hok | exact Hj].
Qed.

Lemma step_analysis (app : App) (a : Action) :
  analysis (ui (step app a)) = analysis (ui app)
  \/ exists r,
       a = AFetchSettled (Resolved r) /\ response_ok r = true
       /\ json r = inl (analysis (ui (step app a))).
Proof.
  destruct a as [e | | o]; simpl.
  - left. apply handle_keeps_analysis.
  - left. unfold click_analyze, analyzeAudio_begin.
    destruct (analyze_disabled (ui app)); [reflexivity |].
    destruct (audioBlob (ui app)); reflexivity.
  - unfold fetch_settled. destruct (in_flight app) as [| request rest]; [left; reflexivity |].
    destruct (settle_analysis o (ui app)) as [H | (r & Ho & Hok & Hj)];
      [left; exact H |].
    right. exists r. repeat apply conj; [rewrite Ho; reflexivity | exact Hok | exact Hj].
Qed.

Lemma run_analysis (actions : list Action) (app : App) :
  analysis (ui (run actions app)) = analysis (ui app)
  \/ exists r,
       In (AFetchSettled (Resolved r)) actions /\ response_ok r = true
       /\ json r = inl (analysis (ui (run actions app))).
Proof.
  unfold run. revert app. induction actions as [| a actions IH]; intros app; simpl.
  - left. reflexivity.
  - destruct (IH (step app a)) as [H | (r & Hin & Hok & Hj)].
    + rewrite H. destruct (step_analysis app a) as [H' | (r & Ha & Hok & Hj)].
      * left. exact H'.
      * right. exists r. repeat apply conj; [left; exact Ha | exact Hok | exact Hj].
    + right. exists r. repeat apply conj; [right; exact Hin | exact Hok | exact Hj].
Qed.

(** X4: whatever is in [analysis], and so on the results panel, is either
    the initial [null] or the parsed body of a response that settled with
    an ok status; no failure, upload or recording ever writes it. *)
Theorem analysis_comes_from_an_ok_response (actions : list Action) :
  analysis (ui (run actions initial_app)) = JNull
  \/ exists r,
       In (AFetchSettled (Resolved r)) actions
       /\ response_ok r = true
       /\ json r = inl (analysis (ui (run actions initial_app))).
Proof. apply (run_analysis actions initial_app). Qed.

(** X5: every clip the page holds, and every request it has in flight,
    is of an audio type: a request is always the POST of lines 52-58 with
    one form entry named audio (file name recording.wav) whose blob is a
    recording labelled audio/wav or an uploaded file whose MIME type starts
    with audio/. *)
Theorem every_request_posts_an_audio_clip (actions : list Action) :
  (forall blob, audioBlob (ui (run actions initial_app)) = Some blob ->
     startsWith (blob_type blob) "audio/" = true)
  /\ (forall request, In request (in_flight (run actions initial_app)) ->
        posts_audio_clip request).
Proof.
  destruct (run_consistent actions initial_app initial_consistent)
    as (_ & _ & _ & Hblob & Hreq & _).
  split; [exact Hblob | exact Hreq].
Qed.

(** X5 on an upload followed by a click. *)
Lemma every_request_posts_an_audio_clip_witness :
  posts_audio_clip
    {| req_url := "/api/analyze-voice"; req_method := "POST";
       req_body :=
         [{| fd_name := "audio";
             fd_value := {| blob_name := Some "a.m4a"; blob_type := "audio/mp4";
                            blob_data := [] |};
             fd_filename := "recording.wav" |}] |}.
Proof.
  destruct (every_request_posts_an_audio_clip
              [AEvent (EFileUpload [{| blob_name := Some "a.m4a"; blob_type := "audio/mp4";
                                       blob_data := [] |}]);
               AClickAnalyze])
    as [_ H].
  apply H. left. reflexivity.
Defined.

(** X6: the body of a response that is not ok is never read: whatever
    its status and body, the state after it is the same, with the fixed
    message Error analyzing audio: Analysis failed. *)
Theorem failed_response_body_is_ignored (st : State) (r r' : Response) :
  response_ok r = false ->
  response_ok r' = false ->
  analyzeAudio_settle (Resolved r) st = analyzeAudio_settle (Resolved r') st
  /\ error (analyzeAudio_settle (Resolved r) st)
     = Some "Error analyzing audio: Analysis failed".
Proof.
  intros H H'. unfold analyzeAudio_settle. rewrite H, H'. split; reflexivity.
Qed.

(** X6 on a 404 with a JSON body and a 503 without one. *)
Lemma failed_response_body_is_ignored_witness :
  analyzeAudio_settle
    (Resolved {| status := 404; json := inl (JObj {[ "error" := JStr "no such route" ]}) |})
    initial_state
  = analyzeAudio_settle
      (Resolved {| status := 503; json := inr "Unexpected end of JSON input" |})
      initial_state.
Proof.
  apply (failed_response_body_is_ignored initial_state
           {| status := 404; json := inl (JObj {[ "error" := JStr "no such route" ]}) |}
           {| status := 503; json := inr "Unexpected end of JSON input" |});
    reflexivity.
Defined.

(** X7: a rejected file does not unselect the clip chosen before: the
    error message is shown, yet the Analyze button is as enabled as it was,
    and a click posts the earlier clip and clears the message. *)
Theorem rejected_upload_keeps_earlier_clip
    (st : State) (blob bad : Blob) (files : list Blob) :
  audioBlob st = Some blob ->
  startsWith (blob_type bad) "audio/" = false ->
  error (handleFileUpload (bad :: files) st) = Some "Please select a valid audio file"
  /\ analyze_disabled (handleFileUpload (bad :: files) st) = analyze_disabled st
  /\ exists st1,
       analyzeAudio_begin (handleFileUpload (bad :: files) st)
       = Some (st1, {| req_url := "/api/analyze-voice"; req_method := "POST";
                       req_body := [{| fd_name := "audio"; fd_value := blob;
                                       fd_filename := "recording.wav" |}] |})
       /\ error st1 = None
       /\ audioBlob st1 = Some blob.
Proof.
  intros Hblob Hbad.
  assert (E : handleFileUpload (bad :: files) st
              = setError (Some "Please select a valid audio file") st).
  { simpl. rewrite Hbad. reflexivity. }
  rewrite E. split; [reflexivity |]. split.
  { rewrite !analyze_disabled_spec. reflexivity. }
  unfold analyzeAudio_begin. simpl. rewrite Hblob.
  eexists. split; [reflexivity |]. split; [reflexivity | exact Hblob].
Qed.

(** X7 on a PDF picked after a recording. *)
Lemma rejected_upload_keeps_earlier_clip_witness :
  analyze_disabled
    (handleFileUpload
       [{| blob_name := Some "notes.pdf"; blob_type := "application/pdf"; blob_data := [] |}]
       (onstop initial_state))
  = analyze_disabled (onstop initial_state).
Proof.
  destruct (rejected_upload_keeps_earlier_clip (onstop initial_state)
              (new_Blob [] "audio/wav")
              {| blob_name := Some "notes.pdf"; blob_type := "application/pdf";
                 blob_data := [] |} [] eq_refl eq_refl)
    as (_ & H & _).
  exact H.
Defined.

(** X2 on a click while the first recording runs. *)
Lemma stop_click_ends_recording_witness :
  isRecording
    (record_click (Denied "")
       (ui (run [AEvent (EStartRecording (Granted 1))] initial_app)))
  = false.
Proof.
  destruct (stop_click_ends_recording [AEvent (EStartRecording (Granted 1))] (Denied ""))
    as (_ & H & _).
  apply H. reflexivity.
Defined.

(** ** What the results section does with a malformed body *)

Lemma opt_toFixed_formattable (sd : Q -> string) (v : JSValue) (f : nat) :
  (formattable v = true -> exists t, opt_toFixed sd v f = Normal t)
  /\ (formattable v = false -> opt_toFixed sd v f = Throw TypeError).
Proof.
  destruct v; simpl; split; intros H; try discriminate H; try reflexivity;
    eexists; reflexivity.
Qed.

Lemma card_outcome (sd : Q -> string) (o : gmap string JSValue) :
  (formattable (default JUndefined (o !! "cadence"))
   && formattable (default JUndefined (o !! "pitch_mean"))
   && formattable (default JUndefined (o !! "pitch_std")) = true ->
   exists node, analysis_card sd (JObj o) = Normal node)
  /\ (formattable (default JUndefined (o !! "cadence"))
      && formattable (default JUndefined (o !! "pitch_mean"))
      && formattable (default JUndefined (o !! "pitch_std")) = false ->
      analysis_card sd (JObj o) = Throw TypeError).
Proof.
  unfold analysis_card, cadence_cell, pitch_mean_cell, pitch_std_cell, cough_count_cell,
    sneeze_count_cell, tone_quality_cell, speech_rate_cell, health_insights_block, get.
  set (c1 := default JUndefined (o !! "cadence")).
  set (c2 := default JUndefined (o !! "pitch_mean")).
  set (c3 := default JUndefined (o !! "pitch_std")).
  destruct (opt_toFixed_formattable sd c1 1) as [Y1 N1].
  destruct (opt_toFixed_formattable sd c2 0) as [Y2 N2].
  destruct (opt_toFixed_formattable sd c3 1) as [Y3 N3].
  simpl.
  destruct (formattable c1).
  - destruct (Y1 eq_refl) as [t1 ->]. simpl.
    destruct (formattable c2).
    + destruct (Y2 eq_refl) as [t2 ->]. simpl.
      destruct (formattable c3).
      * destruct (Y3 eq_refl) as [t3 ->]. simpl.
        split; [intros _; eexists; reflexivity | discriminate].
      * rewrite (N3 eq_refl). simpl. split; [discriminate | reflexivity].
    + rewrite (N2 eq_refl). simpl. split; [discriminate | reflexivity].
  - rewrite (N1 eq_refl). simpl. split; [discriminate | reflexivity].
Qed.

Lemma non_object_card (sd : Q -> string) (a : JSValue) :
  (forall o, a <> JObj o) ->
  ToBoolean a = true ->
  analysis_card sd a = analysis_card sd (JObj ∅).
Proof.
  intros Hno Ht. destruct a; try reflexivity; try discriminate Ht.
  destruct (Hno o eq_refl).
Qed.

Lemma empty_object_card (sd : Q -> string) :
  exists node, analysis_card sd (JObj ∅) = Normal node.
Proof. eexists. reflexivity. Qed.

(** What the fallback cells and the formatted cells hand to React. *)
Lemma unrenderable_truthy (v : JSValue) : renderable v = false -> ToBoolean v = true.
Proof. destruct v; try discriminate; reflexivity. Qed.

Lemma or_cell_text (sd : Q -> string) (c d : JSValue) :
  renderable d = true ->
  (renderable c = true -> exists t, child_text sd (js_or c d) = Normal t)
  /\ (renderable c = false -> child_text sd (js_or c d) = Throw InvalidChild).
Proof.
  intros Hd. unfold js_or. split; intros Hc.
  - destruct (ToBoolean c); apply child_text_renderable; assumption.
  - rewrite (unrenderable_truthy c Hc). apply child_text_renderable. exact Hc.
Qed.

Lemma formatted_cell_text (sd : Q -> string) (v : JSValue) (f : nat) :
  formattable v = true ->
  exists t s, opt_toFixed sd v f = Normal t
              /\ child_text sd (js_or t (JStr "N/A")) = Normal s.
Proof.
  intros Hv. destruct v as [| | b | n | s | xs | o]; try discriminate Hv.
  - exists JUndefined, "N/A". split; reflexivity.
  - exists JUndefined, "N/A". split; reflexivity.
  - exists (JStr (toFixed sd n f)). unfold js_or.
    destruct (ToBoolean (JStr (toFixed sd n f))); eexists; split; reflexivity.
Qed.

(** What mounting the card of an object body comes to. *)
Lemma mounted_object (sd : Q -> string) (o : gmap string JSValue) :
  (formattable (default JUndefined (o !! "cadence"))
   && formattable (default JUndefined (o !! "pitch_mean"))
   && formattable (default JUndefined (o !! "pitch_std")) = false ->
   mounted sd (analysis_card sd (JObj o)) = Throw TypeError)
  /\ (formattable (default JUndefined (o !! "cadence"))
      && formattable (default JUndefined (o !! "pitch_mean"))
      && formattable (default JUndefined (o !! "pitch_std")) = true ->
      (renderable (default JUndefined (o !! "cough_count"))
       && renderable (default JUndefined (o !! "sneeze_count"))
       && renderable (default JUndefined (o !! "tone_quality"))
       && renderable (default JUndefined (o !! "speech_rate"))
       && renderable (default JUndefined (o !! "health_insights")) = false ->
       mounted sd (analysis_card sd (JObj o)) = Throw InvalidChild)
      /\ (renderable (default JUndefined (o !! "cough_count"))
          && renderable (default JUndefined (o !! "sneeze_count"))
          && renderable (default JUndefined (o !! "tone_quality"))
          && renderable (default JUndefined (o !! "speech_rate"))
          && renderable (default JUndefined (o !! "health_insights")) = true ->
          exists texts, mounted sd (analysis_card sd (JObj o)) = Normal texts)).
Proof.
  split.
  { intros F. destruct (card_outcome sd o) as [_ Hno]. rewrite (Hno F). reflexivity. }
  intros F. apply andb_prop in F as [F F3]. apply andb_prop in F as [F1 F2].
  destruct (formatted_cell_text sd _ 1 F1) as (t1 & s1 & E1 & T1).
  destruct (formatted_cell_text sd _ 0 F2) as (t2 & s2 & E2 & T2).
  destruct (formatted_cell_text sd _ 1 F3) as (t3 & s3 & E3 & T3).
  rewrite (mounted_card sd (JObj o)
             (js_or t1 (JStr "N/A")) (js_or t2 (JStr "N/A"))
             (js_or (default JUndefined (o !! "cough_count")) (JNumZ 0))
             (js_or (default JUndefined (o !! "sneeze_count")) (JNumZ 0))
             (js_or t3 (JStr "N/A"))
             (js_or (default JUndefined (o !! "tone_quality")) (JStr "Normal"))
             (js_or (default JUndefined (o !! "speech_rate")) (JStr "N/A"))
             (if ToBoolean (default JUndefined (o !! "health_insights")) then
                NElem "div" "bg-indigo-50 rounded-lg p-4"
                  [NElem "h3" "font-medium text-indigo-900 mb-3" [NText "Health Insights"];
                   NElem "p" "text-sm text-indigo-800"
                     [NExpr (default JUndefined (o !! "health_insights"))]]
              else NExpr (default JUndefined (o !! "health_insights"))));
    try (unfold cadence_cell, pitch_mean_cell, pitch_std_cell, get;
         cbn [mbind Completion_bind]; rewrite ?E1, ?E2, ?E3; reflexivity);
    try reflexivity.
  rewrite T1, T2, T3, insights_texts. cbn [mbind Completion_bind].
  destruct (or_cell_text sd (default JUndefined (o !! "cough_count")) (JNumZ 0) eq_refl)
    as [Y4 N4].
  destruct (or_cell_text sd (default JUndefined (o !! "sneeze_count")) (JNumZ 0) eq_refl)
    as [Y5 N5].
  destruct (or_cell_text sd (default JUndefined (o !! "tone_quality")) (JStr "Normal") eq_refl)
    as [Y6 N6].
  destruct (or_cell_text sd (default JUndefined (o !! "speech_rate")) (JStr "N/A") eq_refl)
    as [Y7 N7].
  destruct (child_text_renderable sd (default JUndefined (o !! "health_insights")))
    as [Y8 N8].
  destruct (renderable (default JUndefined (o !! "cough_count")));
    [destruct (Y4 eq_refl) as [t4 ->]
    | rewrite (N4 eq_refl); split; [reflexivity | discriminate]].
  destruct (renderable (default JUndefined (o !! "sneeze_count")));
    [destruct (Y5 eq_refl) as [t5 ->]
    | rewrite (N5 eq_refl); split; [reflexivity | discriminate]].
  destruct (renderable (default JUndefined (o !! "tone_quality")));
    [destruct (Y6 eq_refl) as [t6 ->]
    | rewrite (N6 eq_refl); split; [reflexivity | discriminate]].
  destruct (renderable (default JUndefined (o !! "speech_rate")));
    [destruct (Y7 eq_refl) as [t7 ->]
    | rewrite (N7 eq_refl); split; [reflexivity | discriminate]].
  destruct (renderable (default JUndefined (o !! "health_insights")));
    [destruct (Y8 eq_refl) as [t8 ->]
    | rewrite (N8 eq_refl); split; [reflexivity | discriminate]].
  split; [discriminate |]. intros _. eexists. reflexivity.
Qed.

Lemma formatted_fields_all (o : gmap string JSValue) :
  formattable (default JUndefined (o !! "cadence"))
  && formattable (default JUndefined (o !! "pitch_mean"))
  && formattable (default JUndefined (o !! "pitch_std")) = true
  <-> forall k, k ∈ formatted_fields -> formattable (default JUndefined (o !! k)) = true.
Proof.
  unfold formatted_fields. split.
  - intros F. apply andb_prop in F as [F F3]. apply andb_prop in F as [F1 F2].
    intros k Hk. repeat (apply elem_of_cons in Hk as [-> | Hk]); try assumption.
    inversion Hk.
  - intros H.
    rewrite (H "cadence"), (H "pitch_mean"), (H "pitch_std"); [reflexivity | | |];
      repeat (apply elem_of_cons; first [left; reflexivity | right]).
Qed.

Lemma child_fields_all (o : gmap string JSValue) :
  renderable (default JUndefined (o !! "cough_count"))
  && renderable (default JUndefined (o !! "sneeze_count"))
  && renderable (default JUndefined (o !! "tone_quality"))
  && renderable (default JUndefined (o !! "speech_rate"))
  && renderable (default JUndefined (o !! "health_insights")) = true
  <-> forall k, k ∈ child_fields -> renderable (default JUndefined (o !! k)) = true.
Proof.
  unfold child_fields. split.
  - intros R. apply andb_prop in R as [R R5]. apply andb_prop in R as [R R4].
    apply andb_prop in R as [R R3]. apply andb_prop in R as [R1 R2].
    intros k Hk. repeat (apply elem_of_cons in Hk as [-> | Hk]); try assumption.
    inversion Hk.
  - intros H.
    rewrite (H "cough_count"), (H "sneeze_count"), (H "tone_quality"), (H "speech_rate"),
      (H "health_insights"); [reflexivity | | | | |];
      repeat (apply elem_of_cons; first [left; reflexivity | right]).
Qed.

Lemma formatted_fields_some (o : gmap string JSValue) :
  formattable (default JUndefined (o !! "cadence"))
  && formattable (default JUndefined (o !! "pitch_mean"))
  && formattable (default JUndefined (o !! "pitch_std")) = false ->
  exists k, k ∈ formatted_fields /\ formattable (default JUndefined (o !! k)) = false.
Proof.
  unfold formatted_fields.
  destruct (formattable (default JUndefined (o !! "cadence"))) eqn:F1;
    [| intros _; exists "cadence"; split; [| exact F1];
       repeat (apply elem_of_cons; first [left; reflexivity | right])].
  destruct (formattable (default JUndefined (o !! "pitch_mean"))) eqn:F2;
    [| intros _; exists "pitch_mean"; split; [| exact F2];
       repeat (apply elem_of_cons; first [left; reflexivity | right])].
  destruct (formattable (default JUndefined (o !! "pitch_std"))) eqn:F3;
    [discriminate |].
  intros _. exists "pitch_std". split; [| exact F3].
  repeat (apply elem_of_cons; first [left; reflexivity | right]).
Qed.

Lemma child_fields_some (o : gmap string JSValue) :
  renderable (default JUndefined (o !! "cough_count"))
  && renderable (default JUndefined (o !! "sneeze_count"))
  && renderable (default JUndefined (o !! "tone_quality"))
  && renderable (default JUndefined (o !! "speech_rate"))
  && renderable (default JUndefined (o !! "health_insights")) = false ->
  exists k, k ∈ child_fields /\ renderable (default JUndefined (o !! k)) = false.
Proof.
  unfold child_fields.
  destruct (renderable (default JUndefined (o !! "cough_count"))) eqn:R1;
    [| intros _; exists "cough_count"; split; [| exact R1];
       repeat (apply elem_of_cons; first [left; reflexivity | right])].
  destruct (renderable (default JUndefined (o !! "sneeze_count"))) eqn:R2;
    [| intros _; exists "sneeze_count"; split; [| exact R2];
       repeat (apply elem_of_cons; first [left; reflexivity | right])].
  destruct (renderable (default JUndefined (o !! "tone_quality"))) eqn:R3;
    [| intros _; exists "tone_quality"; split; [| exact R3];
       repeat (apply elem_of_cons; first [left; reflexivity | right])].
  destruct (renderable (default JUndefined (o !! "speech_rate"))) eqn:R4;
    [| intros _; exists "speech_rate"; split; [| exact R4];
       repeat (apply elem_of_cons; first [left; reflexivity | right])].
  destruct (renderable (default JUndefined (o !! "health_insights"))) eqn:R5;
    [discriminate |].
  intros _. exists "health_insights". split; [| exact R5].
  repeat (apply elem_of_cons; first [left; reflexivity | right]).
Qed.

(** X8: rendering a stored body fails in two ways and no other.  The
    component throws a TypeError exactly when the body is an object in which
    cadence, pitch_mean or pitch_std is present and is neither null nor a
    number (a string such as "120", a boolean, an array, an object):
    [?.toFixed] is then called on something that has no such method.  React
    refuses the tree exactly when the body is an object whose three
    formatted fields pass and in which cough_count, sneeze_count,
    tone_quality, speech_rate or health_insights is a plain object or an
    array holding one: such a value is truthy, so no fallback replaces it,
    and it reaches React as a child.  A body that is not an object, or an
    object whose formatted fields are null or numbers and whose other five
    fields hold no plain object, is put on the page. *)
Theorem results_panel_throws_on_unformattable_field (sd : Q -> string) (a : JSValue) :
  (mounted sd (results_panel sd a) = Throw TypeError
   <-> exists o k,
         a = JObj o /\ k ∈ formatted_fields
         /\ formattable (default JUndefined (o !! k)) = false)
  /\ (mounted sd (results_panel sd a) = Throw InvalidChild
      <-> exists o k,
            a = JObj o
            /\ (forall k', k' ∈ formatted_fields ->
                formattable (default JUndefined (o !! k')) = true)
            /\ k ∈ child_fields
            /\ renderable (default JUndefined (o !! k)) = false)
  /\ ((forall o, a = JObj o ->
       (forall k, k ∈ formatted_fields -> formattable (default JUndefined (o !! k)) = true)
       /\ (forall k, k ∈ child_fields -> renderable (default JUndefined (o !! k)) = true)) ->
      exists texts, mounted sd (results_panel sd a) = Normal texts).
Proof.
  assert (Hnon : (forall o, a <> JObj o) ->
                 exists texts, mounted sd (results_panel sd a) = Normal texts).
  { intros Hno. unfold results_panel. destruct (ToBoolean a) eqn:Ht.
    - rewrite (non_object_card sd a Hno Ht).
      destruct (mounted_object sd ∅) as [_ H]. destruct (H eq_refl) as [_ H'].
      apply H'. reflexivity.
    - eexists. reflexivity. }
  destruct a as [| | b | n | s | xs | o];
    try (destruct Hnon as [texts Htexts]; [discriminate |];
         repeat apply conj;
         [rewrite Htexts; discriminate
         | intros (o & k & E & _); discriminate E
         | rewrite Htexts; discriminate
         | intros (o & k & E & _); discriminate E
         | intros _; exists texts; exact Htexts]).
  clear Hnon. rewrite results_panel_object.
  destruct (mounted_object sd o) as [Hbad Hgood].
  destruct (formattable (default JUndefined (o !! "cadence"))
            && formattable (default JUndefined (o !! "pitch_mean"))
            && formattable (default JUndefined (o !! "pitch_std"))) eqn:F.
  - pose proof (proj1 (formatted_fields_all o) F) as Hall.
    destruct (Hgood eq_refl) as [Hthrow Htexts].
    destruct (renderable (default JUndefined (o !! "cough_count"))
              && renderable (default JUndefined (o !! "sneeze_count"))
              && renderable (default JUndefined (o !! "tone_quality"))
              && renderable (default JUndefined (o !! "speech_rate"))
              && renderable (default JUndefined (o !! "health_insights"))) eqn:R.
    + pose proof (proj1 (child_fields_all o) R) as Hall'.
      destruct (Htexts eq_refl) as [texts E]. rewrite E.
      repeat apply conj.
      * discriminate.
      * intros (o' & k & [= <-] & Hk & Hf). rewrite (Hall k Hk) in Hf. discriminate Hf.
      * discriminate.
      * intros (o' & k & [= <-] & _ & Hk & Hr). rewrite (Hall' k Hk) in Hr. discriminate Hr.
      * intros _. exists texts. reflexivity.
    + rewrite (Hthrow eq_refl).
      repeat apply conj.
      * discriminate.
      * intros (o' & k & [= <-] & Hk & Hf). rewrite (Hall k Hk) in Hf. discriminate Hf.
      * intros _. destruct (child_fields_some o R) as (k & Hk & Hr).
        exists o, k. split; [reflexivity |]. split; [exact Hall |]. split; assumption.
      * reflexivity.
      * intros H. destruct (H o eq_refl) as [_ Hall'].
        rewrite (proj2 (child_fields_all o) Hall') in R. discriminate R.
  - rewrite (Hbad eq_refl).
    repeat apply conj.
    + intros _. destruct (formatted_fields_some o F) as (k & Hk & Hf).
      exists o, k. split; [reflexivity |]. split; assumption.
    + reflexivity.
    + discriminate.
    + intros (o' & k & [= <-] & Hall & _).
      rewrite (proj2 (formatted_fields_all o) Hall) in F. discriminate F.
    + intros H. destruct (H o eq_refl) as [Hall _].
      rewrite (proj2 (formatted_fields_all o) Hall) in F. discriminate F.
Qed.

(** X8 on a body whose cadence is the string 120, and on one whose
    tone_quality is an object. *)
Lemma results_panel_throws_on_unformattable_field_witness :
  mounted (fun _ => "") (results_panel (fun _ => "") (JObj {[ "cadence" := JStr "120" ]}))
  = Throw TypeError
  /\ mounted (fun _ => "") (results_panel (fun _ => "") (JObj {[ "tone_quality" := JObj ∅ ]}))
     = Throw InvalidChild.
Proof.
  split.
  - destruct (results_panel_throws_on_unformattable_field (fun _ => "")
                (JObj {[ "cadence" := JStr "120" ]}))
      as [[_ H] _].
    apply H. exists {[ "cadence" := JStr "120" ]}, "cadence".
    split; [reflexivity |]. split; [| reflexivity].
    unfold formatted_fields. apply elem_of_cons. left. reflexivity.
  - destruct (results_panel_throws_on_unformattable_field (fun _ => "")
                (JObj {[ "tone_quality" := JObj ∅ ]}))
      as (_ & [_ H] & _).
    apply H. exists {[ "tone_quality" := JObj ∅ ]}, "tone_quality".
    split; [reflexivity |].
    split.
    { intros k Hk. unfold formatted_fields in Hk.
      repeat (apply elem_of_cons in Hk as [-> | Hk]); [reflexivity .. | inversion Hk]. }
    split; [| reflexivity].
    unfold child_fields. repeat (apply elem_of_cons; first [left; reflexivity | right]).
Defined.

(** X9: a stored body that is truthy and not an object (a non-empty
    string, a non-zero number, true, an array) is rendered as the card of
    an empty object: N/A for cadence, pitch and pitch variation, 0 for both
    counts, Normal for the tone, N/A for the speech rate, no insights box. *)
Theorem non_object_body_renders_default_card (sd : Q -> string) (a : JSValue) :
  (forall o, a <> JObj o) ->
  ToBoolean a = true ->
  results_panel sd a = results_panel sd (JObj ∅)
  /\ displayed sd (cadence_cell sd a) = Normal "N/A"
  /\ displayed sd (pitch_mean_cell sd a) = Normal "N/A"
  /\ displayed sd (pitch_std_cell sd a) = Normal "N/A"
  /\ displayed sd (cough_count_cell a) = Normal "0"
  /\ displayed sd (sneeze_count_cell a) = Normal "0"
  /\ displayed sd (tone_quality_cell a) = Normal "Normal"
  /\ displayed sd (speech_rate_cell a) = Normal "N/A"
  /\ health_insights_block a = Normal (NExpr JUndefined).
Proof.
  intros Hno Ht.
  split.
  { unfold results_panel. rewrite Ht. simpl. apply non_object_card; assumption. }
  destruct a; try discriminate Ht; try (repeat apply conj; reflexivity).
  destruct (Hno o eq_refl).
Qed.

(** X9 on a body that is a plain string. *)
Lemma non_object_body_renders_default_card_witness :
  results_panel (fun _ => "") (JStr "Internal Server Error")
  = results_panel (fun _ => "") (JObj ∅).
Proof.
  apply (non_object_body_renders_default_card (fun _ => "") (JStr "Internal Server Error")).
  - discriminate.
  - reflexivity.
Defined.

(** ** Numbers are shown as numbers *)

(** X10: a number in cadence, pitch_mean or pitch_std is always shown
    through [toFixed] (one, no and one decimal) and never replaced by N/A,
    whatever the number, zero, negative, NaN and infinities included:
    [toFixed] returns a non-empty string, and a non-empty string is truthy.
    The runtime's digits for numbers of 10^21 and more are assumed
    non-empty, as they are. *)
Theorem number_is_never_replaced_by_NA
    (sd : Q -> string) (o : gmap string JSValue) (n : number) :
  (forall q, sd q <> "") ->
  (o !! "cadence" = Some (JNum n) ->
   displayed sd (cadence_cell sd (JObj o)) = Normal (toFixed sd n 1))
  /\ (o !! "pitch_mean" = Some (JNum n) ->
      displayed sd (pitch_mean_cell sd (JObj o)) = Normal (toFixed sd n 0))
  /\ (o !! "pitch_std" = Some (JNum n) ->
      displayed sd (pitch_std_cell sd (JObj o)) = Normal (toFixed sd n 1)).
Proof.
  intros Hsd.
  unfold cadence_cell, pitch_mean_cell, pitch_std_cell, get.
  repeat apply conj; intros ->; simpl; unfold js_or;
    rewrite (truthy_string _ (toFixed_not_empty sd n _ Hsd)); reflexivity.
Qed.

(** X10 on a negative cadence that rounds to zero. *)
Lemma number_is_never_replaced_by_NA_witness :
  displayed (fun _ => "1e+21")
    (cadence_cell (fun _ => "1e+21") (JObj {[ "cadence" := JNum (Fin (-(1 # 100))) ]}))
  = Normal "-0.0".
Proof.
  destruct (number_is_never_replaced_by_NA (fun _ => "1e+21")
              {[ "cadence" := JNum (Fin (-(1 # 100))) ]} (Fin (-(1 # 100))))
    as (H & _).
  - intros q. discriminate.
  - apply H. reflexivity.
Defined.

(** ** Falsy insights, and the error box *)

Lemma Number_toString_zero (sd : Q -> string) (q : Q) :
  (q == 0)%Q -> Number_toString sd (Fin q) = "0".
Proof.
  intros Hq. unfold Number_toString, is_safe_integer.
  assert (Hf : Qfloor q = 0%Z) by (rewrite (Qfloor_comp q 0 Hq); reflexivity).
  rewrite Hf.
  assert (E : Qeq_bool (inject_Z 0) q = true) by (apply Qeq_bool_iff; symmetry; exact Hq).
  rewrite E. reflexivity.
Qed.

(** X11: a truthy health_insights puts the insights box in the tree; the
    box reaches the page, with the value's text under the heading, when the
    value holds no plain object, and makes React throw when it does.  A
    falsy value is itself handed to React as the child, so a missing, null,
    false or empty insight leaves no text, while the number 0 leaves the
    text 0 on the page and NaN the text NaN. *)
Theorem falsy_insights_leave_no_box (sd : Q -> string) (o : gmap string JSValue) :
  (ToBoolean (default JUndefined (o !! "health_insights")) = true ->
   health_insights_block (JObj o)
   = Normal
       (NElem "div" "bg-indigo-50 rounded-lg p-4"
          [NElem "h3" "font-medium text-indigo-900 mb-3" [NText "Health Insights"];
           NElem "p" "text-sm text-indigo-800"
             [NExpr (default JUndefined (o !! "health_insights"))]])
   /\ (renderable (default JUndefined (o !! "health_insights")) = true ->
       exists t,
         child_text sd (default JUndefined (o !! "health_insights")) = Normal t
         /\ mounted sd (health_insights_block (JObj o)) = Normal ["Health Insights"; t])
   /\ (renderable (default JUndefined (o !! "health_insights")) = false ->
       mounted sd (health_insights_block (JObj o)) = Throw InvalidChild))
  /\ (ToBoolean (default JUndefined (o !! "health_insights")) = false ->
      health_insights_block (JObj o)
      = Normal (NExpr (default JUndefined (o !! "health_insights")))
      /\ (mounted sd (health_insights_block (JObj o)) = Normal [""]
          \/ ((exists q, default JUndefined (o !! "health_insights") = JNum (Fin q))
              /\ mounted sd (health_insights_block (JObj o)) = Normal ["0"])
          \/ (default JUndefined (o !! "health_insights") = JNum NaN
              /\ mounted sd (health_insights_block (JObj o)) = Normal ["NaN"]))).
Proof.
  assert (Hm : mounted sd (health_insights_block (JObj o))
               = (t ← child_text sd (default JUndefined (o !! "health_insights"));
                  Normal (if ToBoolean (default JUndefined (o !! "health_insights"))
                          then ["Health Insights"; t] else [t]))).
  { unfold mounted, health_insights_block, get. cbn [mbind Completion_bind].
    apply insights_texts. }
  rewrite Hm. clear Hm.
  unfold health_insights_block, get.
  set (h := default JUndefined (o !! "health_insights")).
  split; intros Ht; cbn [mbind Completion_bind]; rewrite Ht.
  - split; [reflexivity |].
    destruct (child_text_renderable sd h) as [Y N].
    split; intros Hr.
    + destruct (Y Hr) as [t E]. exists t. split; [exact E |]. rewrite E. reflexivity.
    + rewrite (N Hr). reflexivity.
  - split; [reflexivity |].
    destruct h as [| | b | [| | | q] | s | xs | o']; try discriminate Ht.
    + left. reflexivity.
    + left. reflexivity.
    + left. reflexivity.
    + right. right. split; reflexivity.
    + right. left. split; [exists q; reflexivity |].
      simpl in Ht. apply negb_false_iff, Qeq_bool_iff in Ht.
      change (child_text sd (JNum (Fin q))) with (Normal (Number_toString sd (Fin q))).
      rewrite (Number_toString_zero sd q Ht). reflexivity.
    + left. simpl in Ht. destruct s; [reflexivity | discriminate Ht].
Qed.

(** X11 on an insight that is an object, and on an insight of 0. *)
Lemma falsy_insights_leave_no_box_witness :
  mounted (fun _ => "") (health_insights_block (JObj {[ "health_insights" := JObj ∅ ]}))
  = Throw InvalidChild
  /\ health_insights_block (JObj {[ "health_insights" := JNumZ 0 ]}) = Normal (NExpr (JNumZ 0)).
Proof.
  split.
  - destruct (falsy_insights_leave_no_box (fun _ => "") {[ "health_insights" := JObj ∅ ]})
      as [H _].
    destruct (H eq_refl) as (_ & _ & E). apply E. reflexivity.
  - destruct (falsy_insights_leave_no_box (fun _ => "") {[ "health_insights" := JNumZ 0 ]})
      as [_ H].
    destruct (H eq_refl) as [E _]. exact E.
Defined.

(** X12: in every state the page can reach the error is either unset,
    and the error box renders nothing, or a non-empty message, and the box
    shows exactly that message: no handler ever sets an empty error, which
    [error &&] would hide. *)
Theorem error_is_always_shown (actions : list Action) :
  (error (ui (run actions initial_app)) = None
   /\ error_box (ui (run actions initial_app)) = NExpr JNull)
  \/ exists message,
       error (ui (run actions initial_app)) = Some message
       /\ message <> ""
       /\ error_box (ui (run actions initial_app))
          = NElem "div" "bg-red-50 border border-red-200 rounded-lg p-3"
              [NElem "p" "text-red-700 text-sm" [NExpr (JStr message)]].
Proof.
  destruct (run_consistent actions initial_app initial_consistent)
    as (_ & _ & _ & _ & _ & Herr).
  unfold error_box, error_value.
  destruct (error (ui (run actions initial_app))) as [message |].
  - right. exists message.
    assert (Hne : message <> "") by (intros ->; apply Herr; reflexivity).
    split; [reflexivity |]. split; [exact Hne |].
    rewrite (truthy_string message Hne). reflexivity.
  - left. split; reflexivity.
Qed.

(** ** The page as a system and [analyzeAudio] as one call *)

Lemma run_events_as_actions (events : list UIEvent) (app : App) :
  run (map AEvent events) app
  = {| ui := run_events events (ui app); in_flight := in_flight app |}.
Proof.
  unfold run, run_events. revert app.
  induction events as [| e events IH]; intros app; simpl.
  - destruct app; reflexivity.
  - rewrite IH. reflexivity.
Qed.

(** With the button enabled, a click, the events handled meanwhile and the
    settling of the request are [analyzeAudio] from click to completion. *)
Lemma analyzeAudio_as_actions
    (events : list UIEvent) (o : FetchOutcome) (app : App) (blob : Blob) :
  audioBlob (ui app) = Some blob ->
  loading (ui app) = false ->
  in_flight app = [] ->
  run (AClickAnalyze :: map AEvent events ++ [AFetchSettled o])%list app
  = {| ui := analyzeAudio events o (ui app); in_flight := [] |}.
Proof.
  intros Hblob Hload Hflight.
  change (run (AClickAnalyze :: map AEvent events ++ [AFetchSettled o])%list app)
    with (run (map AEvent events ++ [AFetchSettled o])%list (click_analyze app)).
  unfold run. rewrite fold_left_app. fold (run (map AEvent events) (click_analyze app)).
  rewrite run_events_as_actions.
  unfold click_analyze. rewrite analyze_disabled_spec, Hblob, Hload.
  unfold analyzeAudio, analyzeAudio_begin. rewrite Hblob, Hflight. reflexivity.
Qed.
